(** * The vse42.ru scrapper ([lab_5_scrapper/scrapper.py]) in Rocq

    A shallow embedding of the crawler: configuration validation, the URL
    collector ([Crawler]), the article extractor ([HTMLParser]) and the
    driver ([main]), followed by the properties of the design document that
    were checked against it. *)

From Stdlib Require Import String Ascii.
From Stdlib Require Import List ZArith NArith Lia Bool.
From Equations Require Import Equations.
From Equations.Prop Require Import Logic.
Import ListNotations.

Set Warnings "-register-all".

(** ** Python values *)

(** A Python [str] is a sequence of Unicode code points. *)
Definition pystr : Type := list N.

(** [py s] is the Python literal spelled by the ASCII text [s]. *)
Definition py (s : string) : pystr :=
  map N_of_ascii (list_ascii_of_string s).

Fixpoint str_eqb (a b : pystr) : bool :=
  match a, b with
  | [], [] => true
  | x :: a', y :: b' => N.eqb x y && str_eqb a' b'
  | _, _ => false
  end.

(** [x in l] for a list of strings. *)
Definition str_in (x : pystr) (l : list pystr) : bool :=
  existsb (str_eqb x) l.

(** [sep.join(l)]. *)
Fixpoint join (sep : pystr) (l : list pystr) : pystr :=
  match l with
  | [] => []
  | [x] => x
  | x :: rest => x ++ sep ++ join sep rest
  end.

(** [s.replace(old, new)] for one-character [old] and [new]. *)
Definition replace_char (old new : N) (s : pystr) : pystr :=
  map (fun c => if N.eqb c old then new else c) s.

(** [s.startswith(p)], returning the rest of [s] after [p]. *)
Fixpoint strip_prefix (p s : pystr) : option pystr :=
  match p, s with
  | [], _ => Some s
  | x :: p', y :: s' => if N.eqb x y then strip_prefix p' s' else None
  | _ :: _, [] => None
  end.

(** The characters [str.strip()] removes: those with [str.isspace()]. *)
Definition isspace (c : N) : bool :=
  ((9 <=? c) && (c <=? 13) || (28 <=? c) && (c <=? 32)
   || (c =? 133) || (c =? 160) || (c =? 5760)
   || (8192 <=? c) && (c <=? 8202)
   || (c =? 8232) || (c =? 8233) || (c =? 8239) || (c =? 8287)
   || (c =? 12288))%N.

Fixpoint lstrip (s : pystr) : pystr :=
  match s with
  | c :: s' => if isspace c then lstrip s' else s
  | [] => []
  end.

Definition strip (s : pystr) : pystr :=
  rev (lstrip (rev (lstrip s))).

(** The exceptions the module defines or can meet. *)
Inductive exn : Type :=
| IncorrectSeedURLError
| NumberOfArticlesOutOfRangeError
| IncorrectNumberOfArticlesError
| IncorrectHeadersError
| IncorrectEncodingError
| IncorrectTimeoutError
| IncorrectVerifyError
| TypeError
| KeyError
| AttributeError
| ValueError
| RequestException.

(** The outcome of a call: a value, or a raised exception. *)
Inductive result (A : Type) : Type :=
| Ok (a : A)
| Raise (e : exn).
Arguments Ok {A} a.
Arguments Raise {A} e.

(** ** The parsed markup ([bs4]) *)

Module bs4.

(** A node of the tree [BeautifulSoup(text, "html.parser")] builds.  The
    [class] attribute is multi-valued (a list of tokens); the other
    attributes hold one string each.  [NavigableString] stands for the
    strings [.text] keeps (plain strings and [CData] sections), [Comment]
    for the string classes it leaves out (such as [Comment],
    [Declaration], [Doctype] and [ProcessingInstruction]). *)
Inductive node : Type :=
| Tag (name : pystr) (class_ : list pystr) (attrs : list (pystr * pystr))
      (contents : list node)
| NavigableString (s : pystr)
| Comment (s : pystr).

(** A soup is the content of the document object. *)
Definition BeautifulSoup : Type := list node.

(** The tags below a node, the node first, in document order. *)
Fixpoint self_and_descendants (n : node) : list node :=
  n :: match n with
       | Tag _ _ _ cs => flat_map self_and_descendants cs
       | _ => []
       end.

Definition descendants (soup : BeautifulSoup) : list node :=
  flat_map self_and_descendants soup.

(** A [class_=c] filter holds when one token of the class attribute is [c]
    or the whole attribute, joined by spaces, is [c]. *)
Definition class_matches (c : pystr) (cls : list pystr) : bool :=
  str_in c cls || str_eqb (join (py " ") cls) c.

Definition search_tag (name class_ : option pystr) (n : node) : bool :=
  match n with
  | Tag nm cls _ _ =>
      match name with Some x => str_eqb nm x | None => true end
      && match class_ with Some c => class_matches c cls | None => true end
  | _ => false
  end.

(** [soup.find_all(name, class_=...)]. *)
Definition find_all (name class_ : option pystr) (soup : BeautifulSoup)
  : list node :=
  filter (search_tag name class_) (descendants soup).

(** [soup.find(name)]: the first match, or [None]. *)
Definition find (name : pystr) (soup : BeautifulSoup) : option node :=
  hd_error (find_all (Some name) None soup).

(** [tag.get(key)]. *)
Fixpoint assoc (key : pystr) (l : list (pystr * pystr)) : option pystr :=
  match l with
  | [] => None
  | (k, v) :: rest => if str_eqb k key then Some v else assoc key rest
  end.

Definition get (n : node) (key : pystr) : option pystr :=
  match n with
  | Tag _ _ attrs _ => assoc key attrs
  | _ => None
  end.

(** [tag.text]: the plain strings below the tag, concatenated. *)
Fixpoint text (n : node) : pystr :=
  match n with
  | Tag _ _ _ cs => flat_map text cs
  | NavigableString s => s
  | Comment _ => []
  end.

(** [tag.string]: the single string child, looked for through single tag
    children; [None] when a tag has no child or several. *)
Fixpoint string_ (n : node) : option pystr :=
  match n with
  | Tag _ _ _ [c] => string_ c
  | Tag _ _ _ _ => None
  | NavigableString s => Some s
  | Comment s => Some s
  end.

(** The tree after [decompose()] was called on every element
    [find_all(class_=c)] returned: those elements are gone with all they
    contain. *)
Fixpoint prune (c : pystr) (n : node) : list node :=
  match n with
  | Tag nm cls at_ cs =>
      if class_matches c cls then []
      else [Tag nm cls at_ (flat_map (prune c) cs)]
  | _ => [n]
  end.

Definition decompose_all (c : pystr) (soup : BeautifulSoup) : BeautifulSoup :=
  flat_map (prune c) soup.

End bs4.

(** [str(x)] of a string or of [None]. *)
Definition str (x : option pystr) : pystr :=
  match x with
  | Some s => s
  | None => py "None"
  end.

(** ** [datetime.datetime.strptime] *)

(** An aware [datetime]: the calendar fields and the offset from UTC, in
    microseconds. *)
Record datetime : Type := mk_datetime {
  year : Z; month : Z; day : Z;
  hour : Z; minute : Z; second : Z;
  utcoffset : Z
}.

Module Strptime.
Local Open Scope Z_scope.

(** The zeros of the decimal digits of the Unicode database, version
    14.0, which is that of CPython 3.11; the digits 1 to 9 follow each
    zero. *)
Definition decimal_zeros : list N :=
  [48; 1632; 1776; 1984; 2406; 2534; 2662; 2790; 2918; 3046; 3174; 3302;
   3430; 3558; 3664; 3792; 3872; 4160; 4240; 6112; 6160; 6470; 6608; 6784;
   6800; 6992; 7088; 7232; 7248; 42528; 43216; 43264; 43472; 43504; 43600;
   44016; 65296; 66720; 68912; 69734; 69872; 69942; 70096; 70384; 70736;
   70864; 71248; 71360; 71472; 71904; 72016; 72784; 73040; 73120; 92768;
   92864; 93008; 120782; 120792; 120802; 120812; 120822; 123200; 123632;
   125264; 130032]%N.

(** The number a decimal digit stands for.  The [\d] of a pattern
    compiled from a [str] takes every decimal digit, and [int] reads each
    by this number. *)
Definition decimal (c : N) : option Z :=
  match find (fun z => (z <=? c) && (c <? z + 10))%N decimal_zeros with
  | Some z => Some (Z.of_N (c - z))
  | None => None
  end.

Definition is_digit (c : N) : bool :=
  match decimal c with Some _ => true | None => false end.

Definition digit (c : N) : Z :=
  match decimal c with Some v => v | None => 0 end.

(** A character class [[lo-hi]]. *)
Definition between (lo hi : N) (c : N) : bool := ((lo <=? c) && (c <=? hi))%N.

(** A field parser consumes a prefix and gives the number read. *)
Definition field : Type := pystr -> option (Z * pystr).

(** The regular expressions [_strptime] compiles for the directives of
    the format, alternatives in their order.  Every field of the format
    is followed by a character that is no digit, so the first alternative
    that applies is the only one that can lead to a match. *)

(** [%Y]: four digits. *)
Definition dir_Y : field := fun s =>
  match s with
  | a :: b :: c :: d :: r =>
      if is_digit a && is_digit b && is_digit c && is_digit d
      then Some (digit a * 1000 + digit b * 100 + digit c * 10 + digit d, r)
      else None
  | _ => None
  end.

(** Two characters, each of its class, read as a two-digit number. *)
Definition two_of (first second : N -> bool) : field := fun s =>
  match s with
  | a :: b :: r =>
      if first a && second b
      then Some (digit a * 10 + digit b, r) else None
  | _ => None
  end.

Definition one_of (class : N -> bool) : field := fun s =>
  match s with
  | a :: r => if class a then Some (digit a, r) else None
  | _ => None
  end.

(** [[a_lo-a_hi][b_lo-b_hi]]. *)
Definition two (a_lo a_hi b_lo b_hi : N) : field :=
  two_of (between a_lo a_hi) (between b_lo b_hi).

(** [[lo-hi]]. *)
Definition one (lo hi : N) : field := one_of (between lo hi).

(** [[a_lo-a_hi]\d]. *)
Definition two_d (a_lo a_hi : N) : field :=
  two_of (between a_lo a_hi) is_digit.

(** [\d]. *)
Definition one_d : field := one_of is_digit.

Definition orelse (f g : field) : field := fun s =>
  match f s with Some x => Some x | None => g s end.

Definition c0 : N := 48.
Definition c1 : N := 49.
Definition c2 : N := 50.
Definition c3 : N := 51.
Definition c5 : N := 53.
Definition c6 : N := 54.
Definition c9 : N := 57.

(** [%m]: 1[0-2] | 0[1-9] | [1-9]. *)
Definition dir_m : field :=
  orelse (two c1 c1 c0 c2) (orelse (two c0 c0 c1 c9) (one c1 c9)).

(** [%d]: 3[0-1] | [1-2]\d | 0[1-9] | [1-9] | space [1-9]. *)
Definition dir_d : field :=
  orelse (two c3 c3 c0 c1) (orelse (two_d c1 c2) (orelse (two c0 c0 c1 c9)
    (orelse (one c1 c9)
       (fun s => match s with
                 | 32%N :: r => one c1 c9 r
                 | _ => None
                 end)))).

(** [%H]: 2[0-3] | [0-1]\d | \d. *)
Definition dir_H : field :=
  orelse (two c2 c2 c0 c3) (orelse (two_d c0 c1) one_d).

(** [%M]: [0-5]\d | \d. *)
Definition dir_M : field :=
  orelse (two_d c0 c5) one_d.

(** [%S]: 6[0-1] | [0-5]\d | \d. *)
Definition dir_S : field :=
  orelse (two c6 c6 c0 c1) (orelse (two_d c0 c5) one_d).

(** A literal character of the format; the pattern is compiled with
    [re.IGNORECASE]. *)
Definition literal (c : N) (s : pystr) : option pystr :=
  match s with
  | a :: r =>
      if (a =? c)%N
         || (between 65 90 c && (a =? c + 32)%N)
         || (between 97 122 c && (a =? c - 32)%N)
      then Some r else None
  | [] => None
  end.

(** An optional colon: the rest, and whether the colon was there. *)
Definition opt_colon (s : pystr) : bool * pystr :=
  match s with
  | 58%N :: r => (true, r)
  | _ => (false, s)
  end.

(** Up to [n] digits of a fraction, as read and as padded on the right
    to [n] places. *)
Fixpoint fraction (n : nat) (acc : Z) (s : pystr) : Z * pystr :=
  match n with
  | O => (acc, s)
  | S n' =>
      match s with
      | a :: r => if is_digit a then fraction n' (acc * 10 + digit a) r
                  else (acc * 10 ^ Z.of_nat n, s)
      | [] => (acc * 10 ^ Z.of_nat n, s)
      end
  end.

(** [%z]: [+-]\d\d:?[0-5]\d(:?[0-5]\d(\.\d{1,6})?)? | Z, and the
    conversion of the matched text to an offset.  The result is the
    offset in microseconds and the unmatched rest; [Raise ValueError]
    for the colons [_strptime] rejects as inconsistent. *)
Definition dir_z (s : pystr) : option (result Z * pystr) :=
  match s with
  | 90%N :: r => Some (Ok 0, r)
  | sg :: h1 :: h2 :: r =>
      if ((sg =? 43) || (sg =? 45))%N && is_digit h1 && is_digit h2 then
        let (colon1, r1) := opt_colon r in
        match two_d c0 c5 r1 with
        | None => None
        | Some (mm, r2) =>
            let hh := digit h1 * 10 + digit h2 in
            let sign := if (sg =? 45)%N then -1 else 1 in
            let (colon2, r3) := opt_colon r2 in
            match two_d c0 c5 r3 with
            | None => Some (Ok (sign * ((hh * 3600 + mm * 60) * 1000000)), r2)
            | Some (ss, r4) =>
                let (us, r5) :=
                  match r4 with
                  | 46%N :: d :: r' =>
                      if is_digit d then fraction 5 (digit d) r' else (0, r4)
                  | _ => (0, r4)
                  end in
                if Bool.eqb colon1 colon2
                then Some (Ok (sign * ((hh * 3600 + mm * 60 + ss) * 1000000 + us)), r5)
                else Some (Raise ValueError, r5)
            end
        end
      else None
  | _ => None
  end.

Definition is_leap (y : Z) : bool :=
  (y mod 4 =? 0) && (negb (y mod 100 =? 0) || (y mod 400 =? 0)).

Definition days_in_month (y m : Z) : Z :=
  if m =? 2 then (if is_leap y then 29 else 28)
  else if (m =? 4) || (m =? 6) || (m =? 9) || (m =? 11) then 30
  else 31.

Definition bind {A B} (x : option A) (f : A -> option B) : option B :=
  match x with Some a => f a | None => None end.

(** [datetime.datetime.strptime(date_str, '%Y-%m-%dT%H:%M:%S%z')]: the
    pattern has to match at the start of the string and leave nothing
    unconverted, and the fields have to form a date, a time of day and
    an offset strictly within a day. *)
Definition strptime (date_str : pystr) : result datetime :=
  let parsed :=
    bind (dir_Y date_str) (fun '(Y, s) =>
    bind (literal 45 s) (fun s =>
    bind (dir_m s) (fun '(m, s) =>
    bind (literal 45 s) (fun s =>
    bind (dir_d s) (fun '(d, s) =>
    bind (literal 84 s) (fun s =>
    bind (dir_H s) (fun '(H, s) =>
    bind (literal 58 s) (fun s =>
    bind (dir_M s) (fun '(M, s) =>
    bind (literal 58 s) (fun s =>
    bind (dir_S s) (fun '(S_, s) =>
    bind (dir_z s) (fun '(z, s) =>
    Some (Y, m, d, H, M, S_, z, s))))))))))))) in
  match parsed with
  | Some (Y, m, d, H, M, S_, z, []) =>
      match z with
      | Raise e => Raise e
      | Ok off =>
          if (1 <=? Y) && (d <=? days_in_month Y m) && (S_ <=? 59)
             && (Z.abs off <? 86400 * 1000000)
          then Ok (mk_datetime Y m d H M S_ off)
          else Raise ValueError
      end
  | _ => Raise ValueError
  end.
End Strptime.

(** ** Configuration ([Config]) *)

(** What [json.load] returns. *)
Inductive json : Type :=
| JNull
| JBool (b : bool)
| JInt (n : Z)
| JFloat (mantissa exponent : Z)
| JStr (s : pystr)
| JList (l : list json)
| JDict (d : list (pystr * json)).

Definition bindR {A B} (x : result A) (f : A -> result B) : result B :=
  match x with
  | Ok a => f a
  | Raise e => Raise e
  end.

Notation "'do' x <- c1 ; c2" := (bindR c1 (fun x => c2))
  (at level 10, x name, c1 at level 100, c2 at level 200).

Fixpoint lookup (key : pystr) (d : list (pystr * json)) : option json :=
  match d with
  | [] => None
  | (k, v) :: rest => if str_eqb k key then Some v else lookup key rest
  end.

(** [config[key]]. *)
Definition getitem (config : json) (key : string) : result json :=
  match config with
  | JDict d =>
      match lookup (py key) d with
      | Some v => Ok v
      | None => Raise KeyError
      end
  | _ => Raise TypeError
  end.

(** [isinstance(v, int)]; [bool] is a subclass of [int]. *)
Definition isinstance_int (v : json) : bool :=
  match v with
  | JInt _ | JBool _ => true
  | _ => false
  end.

Definition isinstance_bool (v : json) : bool :=
  match v with JBool _ => true | _ => false end.

Definition isinstance_list (v : json) : bool :=
  match v with JList _ => true | _ => false end.

Definition isinstance_dict (v : json) : bool :=
  match v with JDict _ => true | _ => false end.

Definition isinstance_str (v : json) : bool :=
  match v with JStr _ => true | _ => false end.

(** The number an [int] instance compares as. *)
Definition int_value (v : json) : result Z :=
  match v with
  | JInt n => Ok n
  | JBool b => Ok (if b then 1 else 0)%Z
  | _ => Raise TypeError
  end.

(** [re.match(r'https?://(www.)?', seed_url)] as a truth value: the
    optional group at the end never makes the match fail. *)
Definition re_match_seed (seed_url : pystr) : bool :=
  match strip_prefix (py "http") seed_url with
  | None => false
  | Some r =>
      let r := match r with
               | 115%N :: r' => r'
               | _ => r
               end in
      match strip_prefix (py "://") r with
      | Some _ => true
      | None => false
      end
  end.

(** [all(re.match(...) for seed_url in seed_urls)]: stops at the first
    seed without a match; [re.match] raises on what is no string. *)
Fixpoint all_seeds_match (seed_urls : list json) : result bool :=
  match seed_urls with
  | [] => Ok true
  | JStr seed_url :: rest =>
      if re_match_seed seed_url then all_seeds_match rest else Ok false
  | _ :: _ => Raise TypeError
  end.

(** [Config._validate_config_content], lines 94 to 120: the checks, on
    the value [open] and [json.load] of lines 91 and 92 gave for the
    configuration file.  [Entry.__init__] below has the loading and what
    it may raise. *)
Definition _validate_config_content (config : json) : result unit :=
  do seed_urls <- getitem config "seed_urls";
  if negb (isinstance_list seed_urls) then Raise IncorrectSeedURLError else
  do all_match <- match seed_urls with
                  | JList l => all_seeds_match l
                  | _ => Ok false
                  end;
  if negb all_match then Raise IncorrectSeedURLError else
  do total <- getitem config "total_articles_to_find_and_parse";
  do bad_total <- (if negb (isinstance_int total) then Ok true
                   else do n <- int_value total; Ok (n <=? 0)%Z);
  if (bad_total : bool) then Raise IncorrectNumberOfArticlesError else
  do n <- int_value total;
  if negb ((0 <? n) && (n <=? 150))%Z then Raise NumberOfArticlesOutOfRangeError else
  do headers <- getitem config "headers";
  if negb (isinstance_dict headers) then Raise IncorrectHeadersError else
  do encoding <- getitem config "encoding";
  if negb (isinstance_str encoding) then Raise IncorrectEncodingError else
  do timeout <- getitem config "timeout";
  do bad_timeout <- (if negb (isinstance_int timeout) then Ok true
                     else do t <- int_value timeout;
                          Ok (negb ((0 <? t) && (t <? 60))%Z));
  if (bad_timeout : bool) then Raise IncorrectTimeoutError else
  do verify <- getitem config "should_verify_certificate";
  do bad_flags <- (if negb (isinstance_bool verify) then Ok true
                   else do headless <- getitem config "headless_mode";
                        Ok (negb (isinstance_bool headless)));
  if (bad_flags : bool) then Raise IncorrectVerifyError else
  Ok tt.

(** The values a validated configuration hands to the crawler.  The
    remaining settings only parametrise the requests. *)
Record Config : Type := mk_Config {
  get_seed_urls : list pystr;
  get_num_articles : Z
}.

(** ** Articles, responses and the program state *)

(** Modelled from the spec: the class [Article] of [core_utils.article],
    which is not part of the sources at hand.  A record is created from a
    URL and an identifier; its other fields are populated by the
    extractor, [None] standing for a field nothing was assigned to. *)
Record Article : Type := mk_Article {
  url : pystr;
  article_id : Z;
  text : option pystr;
  title : option pystr;
  date : option datetime;
  topics : option (list pystr);
  author : option (list pystr)
}.

(** [Article(url, article_id)]. *)
Definition new_Article (full_url : pystr) (id : Z) : Article :=
  mk_Article full_url id None None None None None.

(** A response of [requests.get]: the [ok] flag, and the tree
    [BeautifulSoup(response.text, "html.parser")] makes of its body. *)
Record Response : Type := mk_Response {
  ok : bool;
  soup : bs4.BeautifulSoup
}.

(** What a run does, in order: the requests sent, the URLs appended to
    [crawler.urls], and the calls of the two persistence sinks. *)
Inductive event : Type :=
| EvPrepareEnvironment
| EvRequest (full_url : pystr)
| EvAppend (full_url : pystr)
| EvToRaw (a : Article)
| EvToMeta (a : Article).

(** The mutable state of a run: [crawler.urls], the number of requests
    sent so far, and the events so far. *)
Record State : Type := mk_State {
  urls : list pystr;
  requests : nat;
  trace : list event
}.

(** A statement: it ends with a value or an exception, and leaves a
    state behind in both cases. *)
Definition M (A : Type) : Type := State -> result A * State.

Definition ret {A} (a : A) : M A := fun st => (Ok a, st).

Definition raise {A} (e : exn) : M A := fun st => (Raise e, st).

Definition bind {A B} (c : M A) (k : A -> M B) : M B := fun st =>
  match c st with
  | (Ok a, st') => k a st'
  | (Raise e, st') => (Raise e, st')
  end.

Notation "x <- c ;; k" := (bind c (fun x => k))
  (at level 61, c at next level, right associativity).
Notation "c ;; k" := (bind c (fun _ => k))
  (at level 61, right associativity).

Definition emit (e : event) : M unit := fun st =>
  (Ok tt, mk_State (urls st) (requests st) (trace st ++ [e])).

(** [self.urls.append(u)]. *)
Definition urls_append (u : pystr) : M unit := fun st =>
  (Ok tt, mk_State (urls st ++ [u]) (requests st) (trace st ++ [EvAppend u])).

(** The URLs a trace appended, in order. *)
Fixpoint appended (tr : list event) : list pystr :=
  match tr with
  | [] => []
  | EvAppend u :: rest => u :: appended rest
  | _ :: rest => appended rest
  end.

(** A Python string is true when it is not empty. *)
Definition truthy (s : pystr) : bool :=
  match s with [] => false | _ => true end.

(** [len(l)]. *)
Definition len {A} (l : list A) : Z := Z.of_nat (length l).

(** [l[:-k]]. *)
Definition drop_last {A} (k : nat) (l : list A) : list A :=
  firstn (length l - k) l.

(** [enumerate(l, start)]. *)
Fixpoint enumerate {A} (l : list A) (start : Z) : list (Z * A) :=
  match l with
  | [] => []
  | x :: rest => (start, x) :: enumerate rest (start + 1)
  end.

(** ** The URL collector ([Crawler]) *)

(** [self.url_pattern]. *)
Definition url_pattern : pystr := py "https://vse42.ru/articles".

(** The body of the [for link in links] loop of [Crawler._extract_url]. *)
Fixpoint extract_url_links (collected : list pystr) (links : list bs4.node)
  : result pystr :=
  match links with
  | [] => Ok []
  | link :: rest =>
      match bs4.get link (py "href") with
      | None => Raise TypeError
      | Some href =>
          let url := url_pattern ++ skipn (length (py "/articles")) href in
          if negb (str_in url collected) then Ok url
          else extract_url_links collected rest
      end
  end.

(** [Crawler._extract_url]. *)
Definition _extract_url (article_bs : bs4.BeautifulSoup) : M pystr := fun st =>
  let links := bs4.find_all (Some (py "a")) (Some (py "card-big")) article_bs in
  (extract_url_links (urls st) links, st).

(** Whether a link yields a URL that is not collected yet. *)
Definition yields_new (collected : list pystr) (link : bs4.node) : bool :=
  match bs4.get link (py "href") with
  | Some href =>
      negb (str_in (url_pattern ++ skipn (length (py "/articles")) href)
                   collected)
  | None => false
  end.

(** The links of a page that still yield a URL not collected. *)
Definition fresh_links (article_bs : bs4.BeautifulSoup) (collected : list pystr)
  : list bs4.node :=
  filter (yields_new collected)
         (bs4.find_all (Some (py "a")) (Some (py "card-big")) article_bs).

(** The [while extracted_url] loop of [Crawler.find_articles], entered at
    the call of [_extract_url] that feeds its test: the call before the
    loop and the call that ends its body are this one place.  Every pass
    appends a URL one of the page's links still yielded, so the links
    that yield something new get fewer. *)
Equations? while_extracted (num_articles : Z) (article_bs : bs4.BeautifulSoup)
  (st : State) : result unit * State
  by wf (length (fresh_links article_bs (urls st))) lt :=
while_extracted n bs st with inspect (fst (_extract_url bs st)) := {
  | exist _ (Raise e) _ => (Raise e, st)
  | exist _ (Ok []) _ => (Ok tt, st)
  | exist _ (Ok (c :: u)) found with (len (urls st) =? n)%Z := {
      | true => (Ok tt, st)
      | false => while_extracted n bs (snd (urls_append (c :: u) st)) } }.
Proof.
  unfold fresh_links, _extract_url, urls_append in *.
  cbn [fst snd urls] in *.
  clear while_extracted. revert found.
  generalize (bs4.find_all (Some (py "a")) (Some (py "card-big")) bs) as links.
  assert (refl : forall a, str_eqb a a = true).
  { induction a as [|x a IH]; cbn [str_eqb]; [reflexivity|].
    now rewrite N.eqb_refl, IH. }
  assert (mono : forall links,
             length (filter (yields_new (urls st ++ [c :: u])) links)
             <= length (filter (yields_new (urls st)) links)).
  { induction links as [|l links IH]; cbn [filter]; [lia|].
    destruct (yields_new (urls st ++ _) l) eqn:E1,
             (yields_new (urls st) l) eqn:E2; cbn [length]; try lia.
    unfold yields_new, str_in in E1, E2.
    destruct (bs4.get l (py "href")); [|discriminate].
    rewrite existsb_app in E1.
    apply negb_false_iff in E2. rewrite E2 in E1. discriminate. }
  induction links as [|l links IH]; cbn [filter extract_url_links];
    intros found; [discriminate|].
  destruct (bs4.get l (py "href")) as [h|] eqn:G; [|discriminate].
  assert (Y : forall coll, yields_new coll l
    = negb (str_in (url_pattern ++ skipn (length (py "/articles")) h) coll)).
  { intros coll. unfold yields_new. now rewrite G. }
  rewrite !Y.
  destruct (str_in _ (urls st)) eqn:seen; cbn [negb] in found |- *.
  - unfold str_in in *. rewrite existsb_app, seen. cbn [orb negb]. now apply IH.
  - assert (E : url_pattern ++ skipn (length (py "/articles")) h = c :: u)
      by congruence.
    rewrite E.
    unfold str_in. rewrite existsb_app. cbn [existsb].
    rewrite refl, orb_true_r. cbn [negb length].
    apply Nat.lt_succ_r. exact (mono links).
Qed.

(** ** The article extractor ([HTMLParser]) *)

(** [HTMLParser._fill_article_with_text].  [decompose] changes the tree
    the caller holds, so the tree is returned with the article. *)
Definition _fill_article_with_text (article_soup : bs4.BeautifulSoup)
  (article : Article) : bs4.BeautifulSoup * Article :=
  let article_soup := bs4.decompose_all (py "footer") article_soup in
  let article_soup := bs4.decompose_all (py "lead") article_soup in
  let text_blocks := drop_last 5 (bs4.find_all (Some (py "p")) None article_soup) in
  let raw_text := filter truthy (map bs4.text text_blocks) in
  let full_text := join [10%N] raw_text in
  let clean_text := replace_char 160 32 full_text in
  (article_soup,
   mk_Article (url article) (article_id article) (Some clean_text)
              (title article) (date article) (topics article) (author article)).

(** [HTMLParser.unify_date_format]. *)
Definition unify_date_format (date_str : pystr) : result datetime :=
  Strptime.strptime date_str.

Definition rubric_class : pystr :=
  py "news-obj-wide__info news-obj-wide__rubric news-obj-wide__info_left news-obj-wide__info-link waves-effect".

(** [HTMLParser._fill_article_with_meta_information]. *)
Definition _fill_article_with_meta_information (article_soup : bs4.BeautifulSoup)
  (article : Article) : result Article :=
  let author_ := py "NOT FOUND" in
  match bs4.find (py "h1") article_soup with
  | None => Raise AttributeError
  | Some h1 =>
      let title_ := strip (str (bs4.string_ h1)) in
      do date_ <- match bs4.find (py "time") article_soup with
                  | Some date_ =>
                      let d := bs4.get date_ (py "datetime") in
                      unify_date_format (str d)
                  | None =>
                      let date_example := py "2024-01-01" in
                      unify_date_format date_example
                  end;
      let topics_ := bs4.find_all None (Some rubric_class) article_soup in
      Ok (mk_Article (url article) (article_id article) (text article)
            (Some title_) (Some date_)
            (Some (map (fun topic => strip (bs4.text topic)) topics_))
            (Some [author_]))
  end.

(** What [HTMLParser.parse] is declared to return:
    [Union[Article, bool, list]]. *)
Inductive parsed : Type :=
| IsArticle (a : Article)
| IsBool (b : bool)
| IsList (l : list Article).

Section Run.

(** The network: what the [n]-th request of the run, sent to a URL,
    comes back with. *)
Variable web : nat -> pystr -> result Response.

(** [make_request]. *)
Definition make_request (full_url : pystr) : M Response := fun st =>
  (web (requests st) full_url,
   mk_State (urls st) (S (requests st)) (trace st ++ [EvRequest full_url])).

(** The [for seed_url in seed_urls] loop of [Crawler.find_articles]. *)
Fixpoint find_articles_from (num_articles : Z) (seed_urls : list pystr)
  : M unit :=
  match seed_urls with
  | [] => ret tt
  | seed_url :: rest =>
      response <- make_request seed_url ;;
      if negb (ok response) then find_articles_from num_articles rest
      else
        let article_bs := soup response in
        while_extracted num_articles article_bs ;;
        (fun st =>
           if (len (urls st) =? num_articles)%Z then (Ok tt, st)
           else find_articles_from num_articles rest st)
  end.

(** [Crawler.find_articles]. *)
Definition find_articles (config : Config) : M unit :=
  find_articles_from (get_num_articles config) (get_seed_urls config).

(** [HTMLParser(full_url, article_id, config).parse()]. *)
Definition parse (full_url : pystr) (id : Z) : M parsed :=
  let article := new_Article full_url id in
  response <- make_request full_url ;;
  if ok response then
    let '(soup_, article) := _fill_article_with_text (soup response) article in
    match _fill_article_with_meta_information soup_ article with
    | Ok article => ret (IsArticle article)
    | Raise e => raise e
    end
  else ret (IsArticle article).

(** Modelled from the spec: [to_raw] and [to_meta] of
    [core_utils.article.io], which are not part of the sources at hand.
    Each call is one write to its sink for the record given; the call is
    recorded in the trace and returns. *)
Definition to_raw (article : Article) : M unit := emit (EvToRaw article).

Definition to_meta (article : Article) : M unit := emit (EvToMeta article).

(** [prepare_environment] when the work on the file system raises nothing:
    the call is recorded.  [Entry.prepare_environment] below has the
    outcome of that work. *)
Definition prepare_environment : M unit := emit EvPrepareEnvironment.

(** The [for i, full_url in enumerate(crawler.urls, 1)] loop of [main]. *)
Fixpoint parse_each (items : list (Z * pystr)) : M unit :=
  match items with
  | [] => ret tt
  | (i, full_url) :: rest =>
      article <- parse full_url i ;;
      match article with
      | IsArticle a => to_raw a ;; to_meta a
      | _ => ret tt
      end ;;
      parse_each rest
  end.

(** [Crawler(configuration)]: the collector starts with no URL. *)
Definition new_Crawler : M unit := fun st =>
  (Ok tt, mk_State [] (requests st) (trace st)).

(** [main] from line 391 on, for the configuration line 390 constructed,
    with a folder that is prepared without error.  [Entry.main] below is
    the whole of it. *)
Definition main (configuration : Config) : M unit :=
  new_Crawler ;;
  prepare_environment ;;
  find_articles configuration ;;
  (fun st => parse_each (enumerate (urls st) 1%Z) st).

End Run.

(** The state a run starts in. *)
Definition start : State := mk_State [] 0 [].

(** ** The entry point, from the configuration file on *)

(** A result the environment gives, as a statement. *)
Definition lift {A} (r : result A) : M A := fun st => (r, st).

Module Entry.

(** [Config.__init__]: the validation (line 65), then the rest of the
    constructor (lines 66 to 74).  [loaded] is what [open] and [json.load]
    of lines 91 and 92 give for the configuration file, an exception of
    theirs included.  [extracted] is what [_extract_config_content] and
    the reading of the fields of the [ConfigDTO] give; the class
    [ConfigDTO] of [core_utils] is no part of the sources at hand. *)
Definition __init__ (loaded : result json) (extracted : result Config)
  : result Config :=
  do config <- loaded;
  do checked <- _validate_config_content config;
  extracted.

(** [prepare_environment]: the call is recorded; [prepared] is what the
    work on the file system (lines 380 to 383) ends with. *)
Definition prepare_environment (prepared : result unit) : M unit :=
  emit EvPrepareEnvironment ;; lift prepared.

(** [main], line 390 included. *)
Definition main (web : nat -> pystr -> result Response)
  (loaded : result json) (extracted : result Config)
  (prepared : result unit) : M unit :=
  configuration <- lift (__init__ loaded extracted) ;;
  new_Crawler ;;
  prepare_environment prepared ;;
  find_articles web configuration ;;
  (fun st => parse_each web (enumerate (urls st) 1%Z) st).

End Entry.

(** ** Notions of the design document *)

(** The paragraph elements of an article page once the footer and lead
    regions are removed. *)
Definition paragraphs (article_soup : bs4.BeautifulSoup) : list bs4.node :=
  bs4.find_all (Some (py "p")) None
    (bs4.decompose_all (py "lead") (bs4.decompose_all (py "footer") article_soup)).

(** The page the meta information is read from: the tree text assembly
    left behind. *)
Definition after_text_assembly (article_soup : bs4.BeautifulSoup)
  : bs4.BeautifulSoup :=
  bs4.decompose_all (py "lead") (bs4.decompose_all (py "footer") article_soup).

(** The card-marked anchors of a listing page, in document order. *)
Definition card_links (article_bs : bs4.BeautifulSoup) : list bs4.node :=
  bs4.find_all (Some (py "a")) (Some (py "card-big")) article_bs.

(** The design document's Listing Extractor, in its words: among the
    rewritten hrefs, in document order, the first URL that is not
    collected yet, if there is one. *)
Definition next_link (hrefs : list pystr) (already_collected : list pystr)
  : option pystr :=
  List.find (fun u => negb (str_in u already_collected))
            (map (fun href => py "https://vse42.ru/articles" ++ skipn 9 href) hrefs).

(** The records the raw-text sink received, in order. *)
Fixpoint raw_written (tr : list event) : list Article :=
  match tr with
  | [] => []
  | EvToRaw a :: rest => a :: raw_written rest
  | _ :: rest => raw_written rest
  end.

(** The records the metadata sink received, in order. *)
Fixpoint meta_written (tr : list event) : list Article :=
  match tr with
  | [] => []
  | EvToMeta a :: rest => a :: meta_written rest
  | _ :: rest => meta_written rest
  end.

(** The URLs requested, in order. *)
Fixpoint requested (tr : list event) : list pystr :=
  match tr with
  | [] => []
  | EvRequest u :: rest => u :: requested rest
  | _ :: rest => requested rest
  end.

(** Every event of the trace happens while fewer than [n] URLs are
    collected: once [n] are, nothing is requested or appended any more. *)
Definition all_before_target (n : Z) (tr : list event) : Prop :=
  forall (pre : list event) (e : event) (post : list event),
    tr = pre ++ e :: post -> (len (appended pre) < n)%Z.

(** The number and the URL of a record. *)
Definition identity (a : Article) : Z * pystr := (article_id a, url a).

(** ** Sample pages *)

Definition par (s : pystr) : bs4.node :=
  bs4.Tag (py "p") [] [] [bs4.NavigableString s].

Definition heading (s : string) : bs4.node :=
  bs4.Tag (py "h1") [] [] [bs4.NavigableString (py s)].

Definition card (href : string) : bs4.node :=
  bs4.Tag (py "a") [py "card-big"] [(py "href", py href)] [].

(** A heading, seven paragraphs, no [time] element. *)
Definition page_without_time : bs4.BeautifulSoup :=
  [heading "Title"; par (py "one"); par (py "two"); par (py "three");
   par (py "four"); par (py "five"); par (py "six"); par (py "seven")].

(** The same with a publication date. *)
Definition page_with_time : bs4.BeautifulSoup :=
  page_without_time
  ++ [bs4.Tag (py "time") [] [(py "datetime", py "2023-05-10T12:00:00+0300")] []].

(** Seven paragraphs, no heading. *)
Definition page_without_h1 : bs4.BeautifulSoup :=
  [par (py "one"); par (py "two"); par (py "three");
   par (py "four"); par (py "five"); par (py "six"); par (py "seven");
   bs4.Tag (py "time") [] [(py "datetime", py "2023-05-10T12:00:00+0300")] []].

(** Seven paragraphs, the first with a non-breaking space. *)
Definition page_nbsp : bs4.BeautifulSoup :=
  [heading "Title"; par (py "a" ++ [160%N] ++ py "b"); par (py "two");
   par (py "three"); par (py "four"); par (py "five"); par (py "six");
   par (py "seven")].

(** Three paragraphs, one of them in a footer. *)
Definition short_page : bs4.BeautifulSoup :=
  [heading "Title"; par (py "one"); par (py "two");
   bs4.Tag (py "div") [py "footer"] [] [par (py "three")]].

(** Exactly five paragraphs. *)
Definition page_five : bs4.BeautifulSoup :=
  [heading "Title"; par (py "one"); par (py "two"); par (py "three");
   par (py "four"); par (py "five")].

(** A site that serves one page for every URL. *)
Definition web_const (page : bs4.BeautifulSoup) (n : nat) (full_url : pystr)
  : result Response :=
  Ok (mk_Response true page).

(** A page whose heading holds markup beside its text. *)
Definition page_rich_heading : bs4.BeautifulSoup :=
  [bs4.Tag (py "h1") [] []
     [bs4.NavigableString (py "Breaking: ");
      bs4.Tag (py "b") [] [] [bs4.NavigableString (py "news")]];
   bs4.Tag (py "time") [] [(py "datetime", py "2023-05-10T12:00:00+0300")] []].

(** A listing page whose only card has no href. *)
Definition listing_without_href : bs4.BeautifulSoup :=
  [bs4.Tag (py "a") [py "card-big"] [] [bs4.NavigableString (py "more")]].

(** A listing page with three cards. *)
Definition listing_page : bs4.BeautifulSoup :=
  [bs4.Tag (py "div") [] []
     [card "/articles/1"; card "/articles/2"; card "/articles/3"]].

Definition article_1 : pystr := py "https://vse42.ru/articles/1".
Definition article_2 : pystr := py "https://vse42.ru/articles/2".
Definition seed : pystr := py "https://vse42.ru/news".

(** A site whose first article page has no heading. *)
Definition web_missing_h1 (n : nat) (full_url : pystr) : result Response :=
  if str_eqb full_url seed then Ok (mk_Response true listing_page)
  else if str_eqb full_url article_1 then Ok (mk_Response true page_without_h1)
  else Ok (mk_Response true page_with_time).

(** A site whose article pages are not served. *)
Definition web_articles_down (n : nat) (full_url : pystr) : result Response :=
  if str_eqb full_url seed then Ok (mk_Response true listing_page)
  else Ok (mk_Response false []).

Definition two_articles : Config := mk_Config [seed] 2.

(** A configuration file, given its seed URLs and its article count. *)
Definition config_file (seed_urls total : json) : json :=
  JDict [(py "seed_urls", seed_urls);
         (py "total_articles_to_find_and_parse", total);
         (py "headers", JDict []);
         (py "encoding", JStr (py "utf-8"));
         (py "timeout", JInt 5);
         (py "should_verify_certificate", JBool true);
         (py "headless_mode", JBool false)].

(** ** Notions for the collector *)

(** [u] is what the extractor makes of the href of a card link of the
    page. *)
Definition from_page (article_bs : bs4.BeautifulSoup) (u : pystr) : Prop :=
  exists link href,
    In link (card_links article_bs)
    /\ bs4.get link (py "href") = Some href
    /\ u = py "https://vse42.ru/articles" ++ skipn 9 href.

(** [u] comes from a page the site served, with ok, for one of the
    seeds. *)
Definition from_seed_page (web : nat -> pystr -> result Response)
  (seed_urls : list pystr) (u : pystr) : Prop :=
  exists (k : nat) (seed_url : pystr) (response : Response),
    In seed_url seed_urls
    /\ web k seed_url = Ok response
    /\ ok response = true
    /\ from_page (soup response) u.

(** The URLs among [cands] that are not in [seen], each once, in the
    order of their first occurrence. *)
Fixpoint new_in_order (seen cands : list pystr) : list pystr :=
  match cands with
  | [] => []
  | c :: rest =>
      if str_in c seen then new_in_order seen rest
      else c :: new_in_order (seen ++ [c]) rest
  end.

(** The URLs the extractor makes of a list of hrefs. *)
Definition rewritten (hrefs : list pystr) : list pystr :=
  map (fun href => py "https://vse42.ru/articles" ++ skipn 9 href) hrefs.

(** What the inner loop adds for a page with these hrefs: the new URLs
    in order, up to the target. *)
Definition added_from_page (n : Z) (collected hrefs : list pystr)
  : list pystr :=
  firstn (Z.to_nat (n - len collected))
         (new_in_order collected (rewritten hrefs)).

(** A string without whitespace at either end. *)
Definition trimmed (s : pystr) : Prop :=
  (forall c r, s = c :: r -> isspace c = false)
  /\ (forall r c, s = r ++ [c] -> isspace c = false).

(** ** Notions for the configuration *)

(** A string that begins with [http://] or [https://]. *)
Definition http_prefixed (s : pystr) : Prop :=
  exists rest, s = py "http://" ++ rest \/ s = py "https://" ++ rest.

(** The value under a key of a configuration object satisfies [Q]. *)
Definition field_is (d : list (pystr * json)) (key : string)
  (Q : json -> Prop) : Prop :=
  exists v, lookup (py key) d = Some v /\ Q v.

(** An [int] instance with a value from [lo] to [hi]. *)
Definition int_within (lo hi : Z) (v : json) : Prop :=
  exists n, int_value v = Ok n /\ (lo <= n <= hi)%Z.

(** A list of strings that each begin with [http://] or [https://]. *)
Definition seed_list_ok (v : json) : Prop :=
  exists seeds,
    v = JList seeds
    /\ Forall (fun x => exists s, x = JStr s /\ http_prefixed s) seeds.

(** The fields checked before the timeout are as the checks want them. *)
Definition passes_to_timeout (d : list (pystr * json)) : Prop :=
  field_is d "seed_urls" seed_list_ok
  /\ field_is d "total_articles_to_find_and_parse" (int_within 1 150)
  /\ field_is d "headers" (fun v => isinstance_dict v = true)
  /\ field_is d "encoding" (fun v => isinstance_str v = true).

(** A configuration with every field as the checks want it. *)
Definition well_formed (config : json) : Prop :=
  exists d,
    config = JDict d
    /\ passes_to_timeout d
    /\ field_is d "timeout" (int_within 1 59)
    /\ field_is d "should_verify_certificate" (fun v => isinstance_bool v = true)
    /\ field_is d "headless_mode" (fun v => isinstance_bool v = true).

(** The seven errors of the module that stand for a malformed field. *)
Definition config_error (e : exn) : Prop :=
  e = IncorrectSeedURLError \/ e = NumberOfArticlesOutOfRangeError
  \/ e = IncorrectNumberOfArticlesError \/ e = IncorrectHeadersError
  \/ e = IncorrectEncodingError \/ e = IncorrectTimeoutError
  \/ e = IncorrectVerifyError.

(** The keys the validation reads. *)
Definition config_keys : list string :=
  ["seed_urls"; "total_articles_to_find_and_parse"; "headers"; "encoding";
   "timeout"; "should_verify_certificate"; "headless_mode"]%string.

(** The error kind that stands for a malformed field of the object [d],
    field by field as the docstrings of the exception classes and the
    design document's taxonomy give it: the seed URL pattern, the count
    that is no integer, the integer count out of the range from 1 to 150,
    the headers that are no dictionary, the encoding that is no string,
    the timeout that is no positive integer less than 60, and a flag that
    is no boolean. *)
Definition kind_of_malformed_field (d : list (pystr * json)) (e : exn)
  : Prop :=
  (e = IncorrectSeedURLError
   /\ field_is d "seed_urls" (fun v => ~ seed_list_ok v))
  \/ (e = IncorrectNumberOfArticlesError
      /\ field_is d "total_articles_to_find_and_parse"
           (fun v => isinstance_int v = false))
  \/ (e = NumberOfArticlesOutOfRangeError
      /\ field_is d "total_articles_to_find_and_parse"
           (fun v => exists n, int_value v = Ok n /\ ~ (1 <= n <= 150)%Z))
  \/ (e = IncorrectHeadersError
      /\ field_is d "headers" (fun v => isinstance_dict v = false))
  \/ (e = IncorrectEncodingError
      /\ field_is d "encoding" (fun v => isinstance_str v = false))
  \/ (e = IncorrectTimeoutError
      /\ field_is d "timeout" (fun v => ~ int_within 1 59 v))
  \/ (e = IncorrectVerifyError
      /\ (field_is d "should_verify_certificate"
            (fun v => isinstance_bool v = false)
          \/ field_is d "headless_mode"
               (fun v => isinstance_bool v = false))).

(** The first fields of a configuration object, in order: no seed, the
    count given as [true]. *)
Definition fields_to_encoding : list (pystr * json) :=
  [(py "seed_urls", JList []);
   (py "total_articles_to_find_and_parse", JBool true);
   (py "headers", JDict []);
   (py "encoding", JStr [])].

(** * Properties *)

(** ** The parsed markup *)

(** Induction over a tree, with the property known of all children. *)
Lemma node_induction (Q : bs4.node -> Prop) :
  (forall nm cls at_ cs, Forall Q cs -> Q (bs4.Tag nm cls at_ cs)) ->
  (forall s, Q (bs4.NavigableString s)) ->
  (forall s, Q (bs4.Comment s)) ->
  forall n, Q n.
Proof.
  intros HT HS HC. fix IH 1. intros [nm cls at_ cs|s|s].
  - apply HT. induction cs as [|c cs IHcs]; constructor.
    + apply IH.
    + exact IHcs.
  - apply HS.
  - apply HC.
Qed.

Lemma filter_nil_existsb {A} (f : A -> bool) (l : list A) :
  filter f l = [] <-> existsb f l = false.
Proof.
  induction l as [|x l IH]; cbn [filter existsb]; [tauto|].
  destruct (f x); cbn [orb]; [split; discriminate | exact IH].
Qed.

Lemma existsb_flat_map_le {A B} (f : B -> bool) (g h : A -> list B)
  (l : list A) :
  Forall (fun x => existsb f (g x) = true -> existsb f (h x) = true) l ->
  existsb f (flat_map g l) = true -> existsb f (flat_map h l) = true.
Proof.
  induction 1 as [|x l Hx Hl IH]; cbn [flat_map]; [trivial|].
  rewrite !existsb_app, !orb_true_iff. tauto.
Qed.

Lemma flat_map_twice {A B C} (f : B -> list C) (g : A -> list B)
  (l : list A) :
  flat_map f (flat_map g l) = flat_map (fun x => flat_map f (g x)) l.
Proof.
  induction l as [|x l IH]; [reflexivity|].
  cbn [flat_map]. now rewrite flat_map_app, IH.
Qed.

(** Removing elements brings no tag into the tree that a search by name
    would find. *)
Lemma prune_adds_no_tag (name c : pystr) (n : bs4.node) :
  existsb (bs4.search_tag (Some name) None)
          (flat_map bs4.self_and_descendants (bs4.prune c n)) = true ->
  existsb (bs4.search_tag (Some name) None) (bs4.self_and_descendants n) = true.
Proof.
  induction n as [nm cls at_ cs IH|s|s] using node_induction;
    cbn [bs4.prune]; [|cbn [flat_map]; rewrite app_nil_r; trivial..].
  destruct (bs4.class_matches c cls); [discriminate|].
  cbn [flat_map bs4.self_and_descendants]. rewrite app_nil_r.
  cbn [existsb]. rewrite !orb_true_iff. intros [Hself | Hbelow].
  - now left.
  - right. revert Hbelow.
    rewrite flat_map_twice. now apply existsb_flat_map_le.
Qed.

(** A page without an element of some name has none either after the
    footer and the lead were removed. *)
Lemma find_none_after_text_assembly (name : pystr)
  (article_soup : bs4.BeautifulSoup) :
  bs4.find name article_soup = None ->
  bs4.find name (after_text_assembly article_soup) = None.
Proof.
  assert (none : forall soup_, bs4.find name soup_ = None
            <-> existsb (bs4.search_tag (Some name) None)
                        (bs4.descendants soup_) = false).
  { intros soup_. unfold bs4.find, bs4.find_all.
    rewrite <- filter_nil_existsb.
    destruct (filter _ _); cbn [hd_error]; split; congruence. }
  assert (step : forall c soup_,
            existsb (bs4.search_tag (Some name) None)
                    (bs4.descendants (bs4.decompose_all c soup_)) = true ->
            existsb (bs4.search_tag (Some name) None)
                    (bs4.descendants soup_) = true).
  { intros c soup_. unfold bs4.descendants, bs4.decompose_all.
    rewrite flat_map_twice.
    apply existsb_flat_map_le. apply Forall_forall. intros n _.
    apply prune_adds_no_tag. }
  rewrite !none. unfold after_text_assembly. intros H.
  apply not_true_is_false. intros Hfound.
  apply step, step in Hfound. congruence.
Qed.

(** ** Text assembly *)

Lemma drop_last_short {A} (k : nat) (l : list A) :
  length l <= k -> drop_last k l = [].
Proof.
  intros H. unfold drop_last.
  replace (length l - k) with 0 by lia. reflexivity.
Qed.

(** C9: a page with at most five paragraph elements, once footer and lead
    are removed, gets the empty string as its text. *)
Theorem C9_at_most_five_paragraphs_empty_text
  (article_soup : bs4.BeautifulSoup) (article : Article) :
  length (paragraphs article_soup) <= 5 ->
  text (snd (_fill_article_with_text article_soup article)) = Some [].
Proof.
  intros H. unfold _fill_article_with_text. cbn [snd text].
  fold (paragraphs article_soup).
  rewrite (drop_last_short _ _ H). reflexivity.
Qed.

Lemma C9_at_most_five_paragraphs_empty_text_witness :
  length (paragraphs short_page) <= 5
  /\ text (snd (_fill_article_with_text short_page
                  (new_Article article_1 1))) = Some [].
Proof.
  assert (H : length (paragraphs short_page) <= 5) by (vm_compute; lia).
  split; [exact H|].
  exact (C9_at_most_five_paragraphs_empty_text short_page
           (new_Article article_1 1) H).
Defined.

(** The text of a page with seven non-empty paragraphs, as the code
    assembles it. *)
Lemma seven_paragraphs_text (article_soup : bs4.BeautifulSoup)
  (article : Article) (p1 p2 p3 p4 p5 p6 p7 : bs4.node) :
  paragraphs article_soup = [p1; p2; p3; p4; p5; p6; p7] ->
  truthy (bs4.text p1) = true -> truthy (bs4.text p2) = true ->
  text (snd (_fill_article_with_text article_soup article))
  = Some (replace_char 160 32 (bs4.text p1 ++ [10%N] ++ bs4.text p2)).
Proof.
  intros Hps T1 T2. unfold _fill_article_with_text. cbn [snd text].
  fold (paragraphs article_soup). rewrite Hps.
  unfold drop_last. cbn [length Nat.sub firstn map filter].
  rewrite T1, T2. reflexivity.
Qed.

(** C6, as amended: with exactly five paragraph elements the text is the
    empty string; with exactly seven, all non-empty, the text is the first
    two paragraphs' texts joined by a newline, every non-breaking space of
    them replaced by an ordinary space. *)
Theorem C6_trailing_paragraph_exclusion
  (article_soup : bs4.BeautifulSoup) (article : Article) :
  (length (paragraphs article_soup) = 5 ->
   text (snd (_fill_article_with_text article_soup article)) = Some [])
  /\ (forall p1 p2 p3 p4 p5 p6 p7,
         paragraphs article_soup = [p1; p2; p3; p4; p5; p6; p7] ->
         Forall (fun p => truthy (bs4.text p) = true) (paragraphs article_soup) ->
         text (snd (_fill_article_with_text article_soup article))
         = Some (replace_char 160 32 (bs4.text p1) ++ [10%N]
                 ++ replace_char 160 32 (bs4.text p2))).
Proof.
  split.
  - intros H. unfold _fill_article_with_text. cbn [snd text].
    fold (paragraphs article_soup).
    rewrite drop_last_short by lia. reflexivity.
  - intros p1 p2 p3 p4 p5 p6 p7 Hps Hall.
    rewrite Hps in Hall.
    inversion Hall as [|? ? T1 Hall']. inversion Hall' as [|? ? T2 _].
    rewrite (seven_paragraphs_text article_soup article _ _ _ _ _ _ _ Hps T1 T2).
    unfold replace_char. rewrite !map_app. reflexivity.
Qed.

Lemma C6_trailing_paragraph_exclusion_witness :
  text (snd (_fill_article_with_text page_five (new_Article article_1 1)))
  = Some []
  /\ text (snd (_fill_article_with_text page_nbsp (new_Article article_1 1)))
     = Some (py "a b" ++ [10%N] ++ py "two").
Proof.
  split.
  - exact (proj1 (C6_trailing_paragraph_exclusion page_five
                    (new_Article article_1 1)) eq_refl).
  - refine (proj2 (C6_trailing_paragraph_exclusion page_nbsp
                     (new_Article article_1 1)) _ _ _ _ _ _ _ eq_refl _).
    vm_compute. repeat constructor.
Defined.

(** C6, as stated, fails on a page whose first paragraph holds a
    non-breaking space: the text is not the two paragraphs' texts joined
    by a newline. *)
Lemma C6_counterexample :
  length (paragraphs page_nbsp) = 7
  /\ Forall (fun p => truthy (bs4.text p) = true) (paragraphs page_nbsp)
  /\ text (snd (_fill_article_with_text page_nbsp (new_Article article_1 1)))
     <> Some (join [10%N] (map bs4.text (firstn 2 (paragraphs page_nbsp)))).
Proof.
  split; [reflexivity|]. split.
  - vm_compute. repeat constructor.
  - vm_compute. discriminate.
Qed.

(** ** Configuration errors *)

Ltac split_tests :=
  repeat first
    [ progress cbn [bindR negb andb orb]
    | match goal with
      | |- context [match ?x with _ => _ end] => destruct x eqn:?
      end ].

Lemma getitem_raises (config : json) (key : string) (e : exn) :
  getitem config key = Raise e -> e = KeyError \/ e = TypeError.
Proof.
  unfold getitem. destruct config; try (intros [= <-]; now right).
  destruct (lookup (py key) d); [discriminate|]. intros [= <-]. now left.
Qed.

Lemma int_value_raises (v : json) (e : exn) :
  int_value v = Raise e -> e = TypeError.
Proof. destruct v; cbn; congruence. Qed.

Ltac no_count_error :=
  intros E; unfold bindR in E;
  repeat match goal with
    | H : context [match ?x with _ => _ end] |- _ => destruct x eqn:?
    end;
  repeat match goal with
    | H : getitem _ _ = Raise _ |- _ =>
        apply getitem_raises in H; destruct H
    | H : int_value _ = Raise _ |- _ => apply int_value_raises in H
    end;
  congruence.

Lemma strip_prefix_app (p s r : pystr) :
  strip_prefix p s = Some r <-> s = p ++ r.
Proof.
  revert s. induction p as [|x p IH]; intros s; cbn [strip_prefix app].
  - split; congruence.
  - destruct s as [|y s]; [split; discriminate|].
    destruct (N.eqb x y) eqn:E.
    + apply N.eqb_eq in E. subst y. rewrite IH. split; congruence.
    + apply N.eqb_neq in E. split; [discriminate | congruence].
Qed.

Lemma re_match_seed_prefixed (s : pystr) :
  re_match_seed s = true <-> http_prefixed s.
Proof.
  unfold re_match_seed, http_prefixed. split.
  - destruct (strip_prefix (py "http") s) as [r|] eqn:H; [|discriminate].
    apply strip_prefix_app in H. subst s.
    destruct r as [|c r]; [discriminate|].
    destruct c as [|p]; [discriminate|].
    do 7 (try (destruct p as [p|p|]); try discriminate).
    + destruct (strip_prefix (py "://") r) as [r'|] eqn:H'; [|discriminate].
      apply strip_prefix_app in H'. subst r. intros _. exists r'. now right.
    + destruct (strip_prefix (py "://") (58%N :: r)) as [r'|] eqn:H';
        [|discriminate].
      apply strip_prefix_app in H'. rewrite H'. intros _. exists r'. now left.
  - intros [rest [-> | ->]]; reflexivity.
Qed.

Lemma all_seeds_match_true (seeds : list json) :
  all_seeds_match seeds = Ok true
  <-> Forall (fun x => exists s, x = JStr s /\ http_prefixed s) seeds.
Proof.
  induction seeds as [|x seeds IH]; cbn [all_seeds_match].
  - split; [constructor | reflexivity].
  - split.
    + destruct x; try discriminate.
      destruct (re_match_seed s) eqn:Hs; [|discriminate].
      intros H. constructor; [|now apply IH].
      exists s. split; [reflexivity | now apply re_match_seed_prefixed].
    + intros H. inversion H as [|? ? [s [-> Hs]] Hrest]. subst.
      apply re_match_seed_prefixed in Hs. rewrite Hs. now apply IH.
Qed.

Lemma getitem_ok (config : json) (key : string) (v : json) :
  getitem config key = Ok v
  <-> exists d, config = JDict d /\ lookup (py key) d = Some v.
Proof.
  unfold getitem. split.
  - destruct config; try discriminate.
    destruct (lookup (py key) d) eqn:H; [|discriminate].
    intros [= <-]. now exists d.
  - intros [d [-> H]]. now rewrite H.
Qed.

Lemma int_value_ok (v : json) (n : Z) :
  int_value v = Ok n -> isinstance_int v = true.
Proof. destruct v; cbn; congruence. Qed.

Lemma getitem_raises_why (config : json) (key : string) (e : exn) :
  getitem config key = Raise e ->
  (e = KeyError /\ exists d, config = JDict d /\ lookup (py key) d = None)
  \/ (e = TypeError /\ isinstance_dict config = false).
Proof.
  unfold getitem. destruct config; try (intros [= <-]; now right).
  destruct (lookup (py key) d) eqn:H; [discriminate|].
  intros [= <-]. left. split; [reflexivity|]. now exists d.
Qed.

Lemma all_seeds_match_raises (seeds : list json) (e : exn) :
  all_seeds_match seeds = Raise e ->
  e = TypeError /\ exists x, In x seeds /\ isinstance_str x = false.
Proof.
  induction seeds as [|x seeds IH]; cbn [all_seeds_match]; [discriminate|].
  destruct x;
    try (intros [= <-]; split; [reflexivity|];
         eexists; split; [now left | reflexivity]).
  destruct (re_match_seed s); [|discriminate].
  intros H. destruct (IH H) as [-> [x [Hin Hx]]].
  split; [reflexivity|]. exists x. split; [now right | exact Hx].
Qed.

(** Once the seed URLs are accepted: which counts raise the first count
    error, and which the second. *)
Lemma count_errors_exactly (config : json) (seeds : list json)
  (total : json) :
  getitem config "seed_urls" = Ok (JList seeds) ->
  all_seeds_match seeds = Ok true ->
  getitem config "total_articles_to_find_and_parse" = Ok total ->
  (_validate_config_content config = Raise IncorrectNumberOfArticlesError
   <-> (isinstance_int total = false
        \/ exists n, int_value total = Ok n /\ (n <= 0)%Z))
  /\ (_validate_config_content config = Raise NumberOfArticlesOutOfRangeError
      <-> exists n, int_value total = Ok n /\ (150 < n)%Z).
Proof.
  intros Hseeds Hmatch Htotal. unfold _validate_config_content.
  rewrite Hseeds. cbn [bindR isinstance_list negb]. rewrite Hmatch.
  cbn [bindR negb]. rewrite Htotal. cbn [bindR].
  destruct (isinstance_int total) eqn:Hint; cbn [negb bindR].
  - assert (exists n, int_value total = Ok n) as [n Hn]
      by (destruct total; try discriminate; eexists; reflexivity).
    rewrite Hn. cbn [bindR].
    assert (Hval : forall m, Ok n = Ok m -> n = m) by (intros m E; congruence).
    destruct (n <=? 0)%Z eqn:Hle; cbn [bindR].
    + split; split.
      * intros _. right. exists n. split; [reflexivity | lia].
      * reflexivity.
      * discriminate.
      * intros [m [Hm Hbig]]. apply Hval in Hm. lia.
    + destruct ((0 <? n) && (n <=? 150))%Z eqn:Hrange; cbn [negb].
      * split; split.
        -- no_count_error.
        -- intros [Hno | [m [Hm Hsmall]]]; [discriminate|].
           apply Hval in Hm. lia.
        -- no_count_error.
        -- intros [m [Hm Hbig]]. apply Hval in Hm. lia.
      * split; split.
        -- discriminate.
        -- intros [Hno | [m [Hm Hsmall]]]; [discriminate|].
           apply Hval in Hm. lia.
        -- intros _. exists n. split; [reflexivity | lia].
        -- reflexivity.
  - split; split.
    + intros _. now left.
    + reflexivity.
    + discriminate.
    + intros [m [Hm _]]. destruct total; discriminate.
Qed.

Ltac not_a_config_error CE E :=
  exfalso; injection E as <-; unfold config_error in CE;
  repeat (destruct CE as [CE | CE]); discriminate CE.

(** A configuration error, when raised, is the kind of a field that is
    malformed; the one exception is the first count error, which is also
    raised for an integer count below 1. *)
Lemma config_error_names_a_field (config : json) (e : exn) :
  _validate_config_content config = Raise e ->
  config_error e ->
  exists d,
    config = JDict d
    /\ (kind_of_malformed_field d e
        \/ (e = IncorrectNumberOfArticlesError
            /\ field_is d "total_articles_to_find_and_parse"
                 (fun v => exists n, int_value v = Ok n /\ (n <= 0)%Z))).
Proof.
  intros E CE. unfold _validate_config_content in E.
  destruct config as [| | | | | |d];
    try (cbn [getitem bindR] in E; not_a_config_error CE E).
  exists d. split; [reflexivity|]. unfold getitem in E.
  destruct (lookup (py "seed_urls") d) as [sv|] eqn:L1; cbn [bindR] in E;
    [|not_a_config_error CE E].
  destruct (isinstance_list sv) eqn:I1; cbn [negb] in E.
  2: { injection E as <-. left. left. split; [reflexivity|].
       exists sv. split; [exact L1|]. intros [seeds [-> _]]. discriminate I1. }
  destruct sv as [| | | | |l|]; try discriminate I1.
  destruct (all_seeds_match l) as [[|]|e'] eqn:A; cbn [bindR negb] in E.
  2: { injection E as <-. left. left. split; [reflexivity|].
       exists (JList l). split; [exact L1|]. intros [seeds [[= <-] Hs]].
       apply all_seeds_match_true in Hs. congruence. }
  2: { apply all_seeds_match_raises in A as [-> _]. not_a_config_error CE E. }
  destruct (lookup (py "total_articles_to_find_and_parse") d) as [total|]
    eqn:L2; cbn [bindR] in E; [|not_a_config_error CE E].
  destruct (isinstance_int total) eqn:I2; cbn [negb bindR] in E.
  2: { injection E as <-. left. right. left. split; [reflexivity|].
       now exists total. }
  destruct (int_value total) as [n|e'] eqn:V2; cbn [bindR] in E;
    [|destruct total; discriminate].
  destruct (n <=? 0)%Z eqn:N0.
  { injection E as <-. right. split; [reflexivity|].
    exists total. split; [exact L2|]. exists n. split; [exact V2 | lia]. }
  destruct ((0 <? n) && (n <=? 150))%Z eqn:R; cbn [negb] in E.
  2: { injection E as <-. left. do 2 right. left. split; [reflexivity|].
       exists total. split; [exact L2|]. exists n.
       split; [exact V2 | lia]. }
  destruct (lookup (py "headers") d) as [headers|] eqn:L3; cbn [bindR] in E;
    [|not_a_config_error CE E].
  destruct (isinstance_dict headers) eqn:I3; cbn [negb] in E.
  2: { injection E as <-. left. do 3 right. left. split; [reflexivity|].
       now exists headers. }
  destruct (lookup (py "encoding") d) as [encoding|] eqn:L4; cbn [bindR] in E;
    [|not_a_config_error CE E].
  destruct (isinstance_str encoding) eqn:I4; cbn [negb] in E.
  2: { injection E as <-. left. do 4 right. left. split; [reflexivity|].
       now exists encoding. }
  destruct (lookup (py "timeout") d) as [timeout|] eqn:L5; cbn [bindR] in E;
    [|not_a_config_error CE E].
  destruct (isinstance_int timeout) eqn:I5; cbn [negb bindR] in E.
  2: { injection E as <-. left. do 5 right. left. split; [reflexivity|].
       exists timeout. split; [exact L5|]. intros [t [Vt _]].
       apply int_value_ok in Vt. congruence. }
  destruct (int_value timeout) as [t|e'] eqn:V5; cbn [bindR] in E;
    [|destruct timeout; discriminate].
  destruct ((0 <? t) && (t <? 60))%Z eqn:R5; cbn [negb] in E.
  2: { injection E as <-. left. do 5 right. left. split; [reflexivity|].
       exists timeout. split; [exact L5|]. intros [t' [Vt' Ht']].
       assert (t' = t) by congruence. lia. }
  destruct (lookup (py "should_verify_certificate") d) as [verify|] eqn:L6;
    cbn [bindR] in E; [|not_a_config_error CE E].
  destruct (isinstance_bool verify) eqn:I6; cbn [negb bindR] in E.
  2: { injection E as <-. left. do 6 right. split; [reflexivity|].
       left. now exists verify. }
  destruct (lookup (py "headless_mode") d) as [headless|] eqn:L7;
    cbn [bindR] in E; [|not_a_config_error CE E].
  destruct (isinstance_bool headless) eqn:I7; cbn [negb] in E;
    [discriminate|].
  injection E as <-. left. do 6 right. split; [reflexivity|].
  right. now exists headless.
Qed.

(** C8: the validation and its own documentation part ways at an integer
    count below 1.  Once the seed URLs are accepted, such a count raises
    the error documented for a count that is no integer, although the
    kind that stands for it is the range error, whose test [0 < ...] in
    the next statement is never reached for it.  Everywhere else the two
    count errors are told apart as documented: a count that is no integer
    raises the type error and the range error is raised exactly for an
    integer above 150.  And every configuration error raised is, the
    count below 1 apart, the kind of a field that is malformed. *)
Theorem C8_count_below_one_raises_type_error :
  (forall d total n,
     field_is d "seed_urls" seed_list_ok ->
     lookup (py "total_articles_to_find_and_parse") d = Some total ->
     int_value total = Ok n -> (n <= 0)%Z ->
     _validate_config_content (JDict d) = Raise IncorrectNumberOfArticlesError
     /\ kind_of_malformed_field d NumberOfArticlesOutOfRangeError
     /\ ~ kind_of_malformed_field d IncorrectNumberOfArticlesError)
  /\ (forall d total,
        field_is d "seed_urls" seed_list_ok ->
        lookup (py "total_articles_to_find_and_parse") d = Some total ->
        (isinstance_int total = false ->
         _validate_config_content (JDict d)
         = Raise IncorrectNumberOfArticlesError)
        /\ (_validate_config_content (JDict d)
            = Raise NumberOfArticlesOutOfRangeError
            <-> exists n, int_value total = Ok n /\ (150 < n)%Z)
        /\ (_validate_config_content (JDict d)
            = Raise IncorrectNumberOfArticlesError
            <-> isinstance_int total = false
                \/ exists n, int_value total = Ok n /\ (n <= 0)%Z))
  /\ (forall config e,
        _validate_config_content config = Raise e ->
        config_error e ->
        exists d,
          config = JDict d
          /\ (kind_of_malformed_field d e
              \/ (e = IncorrectNumberOfArticlesError
                  /\ field_is d "total_articles_to_find_and_parse"
                       (fun v => exists n,
                            int_value v = Ok n /\ (n <= 0)%Z)))).
Proof.
  assert (counts : forall d total,
            field_is d "seed_urls" seed_list_ok ->
            lookup (py "total_articles_to_find_and_parse") d = Some total ->
            (_validate_config_content (JDict d)
             = Raise IncorrectNumberOfArticlesError
             <-> isinstance_int total = false
                 \/ exists n, int_value total = Ok n /\ (n <= 0)%Z)
            /\ (_validate_config_content (JDict d)
                = Raise NumberOfArticlesOutOfRangeError
                <-> exists n, int_value total = Ok n /\ (150 < n)%Z)).
  { intros d total [sv [L1 [seeds [-> Hseeds]]]] L2.
    apply all_seeds_match_true in Hseeds.
    apply (count_errors_exactly (JDict d) seeds total); [| exact Hseeds |].
    - apply getitem_ok. now exists d.
    - apply getitem_ok. now exists d. }
  split; [|split].
  - intros d total n Hseeds L2 V2 Hn.
    destruct (counts d total Hseeds L2) as [Htype _]. split; [|split].
    + apply Htype. right. now exists n.
    + do 2 right. left. split; [reflexivity|].
      exists total. split; [exact L2|]. exists n. split; [exact V2 | lia].
    + intros [[K _] | [[_ [v [L I]]] | K]]; [discriminate K | |].
      * cbv beta in I. assert (v = total) by congruence. subst v.
        apply int_value_ok in V2. congruence.
      * repeat (destruct K as [[K _] | K]; [discriminate K|]).
        destruct K as [K _]. discriminate K.
  - intros d total Hseeds L2.
    destruct (counts d total Hseeds L2) as [Htype Hrange].
    split; [|split].
    + intros I. apply Htype. now left.
    + exact Hrange.
    + exact Htype.
  - exact config_error_names_a_field.
Qed.

(** The configuration with one good seed and the count 0. *)
Lemma C8_count_below_one_raises_type_error_witness :
  _validate_config_content (config_file (JList [JStr seed]) (JInt 0))
  = Raise IncorrectNumberOfArticlesError
  /\ _validate_config_content (config_file (JList [JStr seed]) (JInt 0))
     <> Raise NumberOfArticlesOutOfRangeError
  /\ ~ (1 <= 0 <= 150)%Z.
Proof.
  assert (Hseeds : field_is
            [(py "seed_urls", JList [JStr seed]);
             (py "total_articles_to_find_and_parse", JInt 0);
             (py "headers", JDict []);
             (py "encoding", JStr (py "utf-8"));
             (py "timeout", JInt 5);
             (py "should_verify_certificate", JBool true);
             (py "headless_mode", JBool false)]
            "seed_urls" seed_list_ok).
  { exists (JList [JStr seed]). split; [reflexivity|].
    exists [JStr seed]. split; [reflexivity|].
    constructor; [|constructor]. exists seed. split; [reflexivity|].
    exists (py "vse42.ru/news"). now right. }
  destruct (proj1 C8_count_below_one_raises_type_error _ (JInt 0) 0%Z
              Hseeds eq_refl eq_refl (Z.le_refl 0)) as [Hraise _].
  unfold config_file. split; [exact Hraise|]. split; [|lia].
  rewrite Hraise. discriminate.
Defined.

(** ** Meta information *)

(** The fallback date is no input the strict format accepts. *)
Lemma fallback_date_rejected :
  unify_date_format (py "2024-01-01") = Raise ValueError.
Proof. reflexivity. Qed.

(** Whatever the page, as soon as it has a heading and no [time] element
    the meta information cannot be filled in. *)
Lemma meta_without_time_raises (article_soup : bs4.BeautifulSoup)
  (article : Article) (h1 : bs4.node) :
  bs4.find (py "h1") article_soup = Some h1 ->
  bs4.find (py "time") article_soup = None ->
  _fill_article_with_meta_information article_soup article = Raise ValueError.
Proof.
  intros Hh1 Htime. unfold _fill_article_with_meta_information.
  rewrite Hh1, Htime, fallback_date_rejected. reflexivity.
Qed.

(** The date of a page whose first [time] element carries a [datetime]
    attribute is that attribute, parsed. *)
Lemma meta_with_time (article_soup : bs4.BeautifulSoup) (article : Article)
  (h1 time_ : bs4.node) (d : pystr) (dt : datetime) :
  bs4.find (py "h1") article_soup = Some h1 ->
  bs4.find (py "time") article_soup = Some time_ ->
  bs4.get time_ (py "datetime") = Some d ->
  unify_date_format d = Ok dt ->
  exists article',
    _fill_article_with_meta_information article_soup article = Ok article'
    /\ date article' = Some dt.
Proof.
  intros Hh1 Htime Hd Hdt. unfold _fill_article_with_meta_information.
  rewrite Hh1, Htime, Hd. cbn [str]. rewrite Hdt. cbn [bindR].
  eexists. split; reflexivity.
Qed.

(** Whatever the site, a fetched page with a heading and without a
    [time] element makes [parse] end with [ValueError]. *)
Lemma parse_without_time_raises (web : nat -> pystr -> result Response)
  (full_url : pystr) (i : Z) (st : State) (response : Response)
  (h1 : bs4.node) :
  web (requests st) full_url = Ok response ->
  ok response = true ->
  bs4.find (py "h1") (after_text_assembly (soup response)) = Some h1 ->
  bs4.find (py "time") (soup response) = None ->
  fst (parse web full_url i st) = Raise ValueError.
Proof.
  intros Hweb Hok Hh1 Htime.
  apply find_none_after_text_assembly in Htime.
  unfold parse, bind, make_request. rewrite Hweb, Hok.
  unfold _fill_article_with_text.
  fold (after_text_assembly (soup response)).
  now rewrite (meta_without_time_raises _ _ h1 Hh1 Htime).
Qed.

(** C1: on a page with a heading and no [time] element the extractor
    does not produce the fallback timestamp: the fallback string fails
    the strict parser, and extraction ends with [ValueError].  A page
    with datetime 2023-05-10T12:00:00+0300 does get that timestamp. *)
Theorem C1_fallback_date_raises :
  bs4.find (py "time") (after_text_assembly page_without_time) = None
  /\ _fill_article_with_meta_information
       (after_text_assembly page_without_time) (new_Article article_1 1)
     = Raise ValueError
  /\ fst (parse (web_const page_without_time) article_1 1 start)
     = Raise ValueError
  /\ (exists a,
        fst (parse (web_const page_with_time) article_1 1 start)
        = Ok (IsArticle a)
        /\ date a = Some (mk_datetime 2023 5 10 12 0 0 (3 * 3600 * 1000000))).
Proof.
  split; [reflexivity|]. split.
  - apply (meta_without_time_raises _ _ (heading "Title")); reflexivity.
  - split; [reflexivity|]. eexists. split; reflexivity.
Qed.

(** ** The driver *)

(** C3: when the fetch of an article page is not ok, [parse] hands back
    the record with nothing but its URL and identifier, and [main] still
    passes it to both sinks. *)
Theorem C3_unfetched_article_is_persisted :
  let run := main web_articles_down two_articles start in
  fst run = Ok tt
  /\ urls (snd run) = [article_1; article_2]
  /\ raw_written (trace (snd run))
     = [new_Article article_1 1; new_Article article_2 2]
  /\ meta_written (trace (snd run))
     = [new_Article article_1 1; new_Article article_2 2].
Proof. vm_compute. repeat split. Qed.

(** Whatever the site, an article whose fetch is not ok is written to
    both sinks, unpopulated. *)
Lemma not_ok_is_persisted (web : nat -> pystr -> result Response)
  (i : Z) (full_url : pystr) (rest : list (Z * pystr)) (st : State)
  (response : Response) :
  web (requests st) full_url = Ok response ->
  ok response = false ->
  parse_each web ((i, full_url) :: rest) st
  = parse_each web rest
      (mk_State (urls st) (S (requests st))
         (trace st ++ [EvRequest full_url]
                   ++ [EvToRaw (new_Article full_url i)]
                   ++ [EvToMeta (new_Article full_url i)])).
Proof.
  intros Hweb Hok. cbn [parse_each]. unfold bind at 1. unfold parse.
  unfold bind at 1. unfold make_request at 1. rewrite Hweb, Hok.
  unfold ret at 1. unfold bind at 1. unfold bind at 1.
  unfold to_raw, to_meta, emit. cbn [urls requests trace].
  rewrite <- !app_assoc. reflexivity.
Qed.

(** C2, as amended: when a fetched article page has no [h1] element
    left after text assembly, extraction ends with an attribute error
    that nothing catches: nothing is written for that article, and the
    loop of [main] ends there, without a request or a write for any of
    the remaining URLs. *)
Theorem C2_missing_heading_ends_run (web : nat -> pystr -> result Response)
  (i : Z) (full_url : pystr) (rest : list (Z * pystr)) (st : State)
  (response : Response) :
  web (requests st) full_url = Ok response ->
  ok response = true ->
  bs4.find (py "h1") (after_text_assembly (soup response)) = None ->
  parse_each web ((i, full_url) :: rest) st
  = (Raise AttributeError,
     mk_State (urls st) (S (requests st)) (trace st ++ [EvRequest full_url])).
Proof.
  intros Hweb Hok Hh1. cbn [parse_each]. unfold bind at 1. unfold parse.
  unfold bind at 1. unfold make_request at 1. rewrite Hweb, Hok.
  unfold _fill_article_with_text.
  fold (after_text_assembly (soup response)).
  unfold _fill_article_with_meta_information. rewrite Hh1. reflexivity.
Qed.

Lemma C2_missing_heading_ends_run_witness :
  parse_each web_missing_h1 [(1%Z, article_1); (2%Z, article_2)] start
  = (Raise AttributeError, mk_State [] 1 [EvRequest article_1]).
Proof.
  exact (C2_missing_heading_ends_run web_missing_h1 1 article_1
           [(2%Z, article_2)] start (mk_Response true page_without_h1)
           eq_refl eq_refl eq_refl).
Defined.

(** C2, as stated, fails on a site whose first article has no heading:
    the run ends with the error, and the second collected URL is never
    requested. *)
Lemma C2_counterexample :
  let run := main web_missing_h1 two_articles start in
  urls (snd run) = [article_1; article_2]
  /\ fst run = Raise AttributeError
  /\ requested (trace (snd run)) = [seed; article_1]
  /\ ~ In article_2 (requested (trace (snd run))).
Proof.
  vm_compute. repeat split. intros [H | [H | []]]; discriminate H.
Qed.

(** ** The listing extractor *)

Lemma str_eqb_refl (a : pystr) : str_eqb a a = true.
Proof.
  induction a as [|x a IH]; cbn [str_eqb]; [reflexivity|].
  now rewrite N.eqb_refl, IH.
Qed.

Lemma str_eqb_eq (a b : pystr) : str_eqb a b = true <-> a = b.
Proof.
  split; [|intros ->; apply str_eqb_refl].
  revert b. induction a as [|x a IH]; intros [|y b]; cbn [str_eqb];
    try discriminate; [reflexivity|].
  intros H. apply andb_prop in H as [Hx Hab].
  apply N.eqb_eq in Hx. apply IH in Hab. now subst.
Qed.

Lemma str_in_In (x : pystr) (l : list pystr) : str_in x l = true <-> In x l.
Proof.
  unfold str_in. rewrite existsb_exists. split.
  - intros [y [Hy E]]. apply str_eqb_eq in E. now subst.
  - intros H. exists x. split; [exact H | apply str_eqb_refl].
Qed.

Lemma str_in_not_In (x : pystr) (l : list pystr) :
  str_in x l = false <-> ~ In x l.
Proof.
  rewrite <- str_in_In. destruct (str_in x l); split; congruence.
Qed.

(** The loop over the links computes the extractor of the design
    document, the empty string standing for its none. *)
Lemma extract_url_links_next (collected : list pystr) (links : list bs4.node)
  (hrefs : list pystr) :
  map (fun link => bs4.get link (py "href")) links = map Some hrefs ->
  extract_url_links collected links
  = Ok (match next_link hrefs collected with Some u => u | None => [] end).
Proof.
  revert hrefs. induction links as [|link links IH]; intros [|href hrefs] H;
    try discriminate; [reflexivity|].
  cbn [map] in H. injection H as Hlink Hrest.
  cbn [extract_url_links]. rewrite Hlink.
  unfold next_link. cbn [map List.find].
  change (url_pattern ++ skipn (length (py "/articles")) href)
    with (py "https://vse42.ru/articles" ++ skipn 9 href).
  destruct (negb (str_in _ collected)); [reflexivity|].
  now apply IH.
Qed.

(** A URL the loop returns is the rewritten href of one of the links,
    and is not collected yet. *)
Lemma extract_url_links_sound (collected : list pystr) (links : list bs4.node)
  (u : pystr) :
  extract_url_links collected links = Ok u -> u <> [] ->
  exists link href,
    In link links /\ bs4.get link (py "href") = Some href
    /\ u = py "https://vse42.ru/articles" ++ skipn 9 href
    /\ ~ In u collected.
Proof.
  induction links as [|link links IH]; cbn [extract_url_links]; intros H Hu.
  - congruence.
  - destruct (bs4.get link (py "href")) as [href|] eqn:G; [|discriminate].
    destruct (str_in _ collected) eqn:seen; cbn [negb] in H.
    + destruct (IH H Hu) as [l [h [Hin Hrest]]].
      exists l, h. split; [now right | exact Hrest].
    + exists link, href. split; [now left|]. split; [exact G|].
      assert (E : url_pattern ++ skipn (length (py "/articles")) href = u)
        by congruence.
      split; [now rewrite <- E|].
      rewrite <- E. now apply str_in_not_In.
Qed.

(** C7, as amended: on a page whose card links all carry an href, the
    listing extractor returns the first rewritten href, in document order, that is
    not collected yet, and the empty string when there is none; it leaves
    the state as it found it, and its result depends on the page and the
    collected URLs only. *)
Theorem C7_listing_extractor (article_bs : bs4.BeautifulSoup) (st : State)
  (hrefs : list pystr) :
  map (fun link => bs4.get link (py "href")) (card_links article_bs)
  = map Some hrefs ->
  _extract_url article_bs st
  = (Ok (match next_link hrefs (urls st) with Some u => u | None => [] end), st)
  /\ (next_link hrefs (urls st) = None <->
      Forall (fun href =>
                In (py "https://vse42.ru/articles" ++ skipn 9 href) (urls st))
             hrefs)
  /\ (forall st', urls st' = urls st ->
        fst (_extract_url article_bs st') = fst (_extract_url article_bs st))
  /\ (_extract_url article_bs ;; _extract_url article_bs) st
     = _extract_url article_bs st.
Proof.
  intros H. unfold _extract_url. fold (card_links article_bs).
  rewrite (extract_url_links_next _ _ _ H). split; [reflexivity|]. split.
  - unfold next_link. clear H.
    induction hrefs as [|href hrefs IH]; cbn [map List.find].
    + split; [constructor | reflexivity].
    + destruct (str_in _ (urls st)) eqn:seen; cbn [negb].
      * rewrite IH. apply str_in_In in seen. split.
        -- intros Hall. now constructor.
        -- intros Hall. now inversion Hall.
      * apply str_in_not_In in seen. split; [discriminate|].
        intros Hall. inversion Hall. contradiction.
  - split.
    + intros st' Hurls. cbn [fst]. rewrite Hurls.
      now apply extract_url_links_next.
    + unfold bind. fold (card_links article_bs).
      rewrite (extract_url_links_next _ _ _ H). reflexivity.
Qed.

Lemma C7_listing_extractor_witness :
  _extract_url listing_page (mk_State [article_1] 1 [EvAppend article_1])
  = (Ok article_2, mk_State [article_1] 1 [EvAppend article_1]).
Proof.
  exact (proj1 (C7_listing_extractor listing_page
                  (mk_State [article_1] 1 [EvAppend article_1])
                  [py "/articles/1"; py "/articles/2"; py "/articles/3"]
                  eq_refl)).
Defined.

(** C7, as stated, fails on a page with a card link without href: the
    call ends with [TypeError], neither with a URL nor with the empty
    string. *)
Lemma C7_counterexample :
  card_links listing_without_href = listing_without_href
  /\ _extract_url listing_without_href start = (Raise TypeError, start)
  /\ forall u, fst (_extract_url listing_without_href start) <> Ok u.
Proof.
  split; [reflexivity|]. split; [reflexivity|]. intros u. discriminate.
Qed.

(** C10: the URL the extractor makes of an href is the base path
    followed by the href without its first nine characters, whatever
    those are; of an href of at most nine characters it is the base path
    alone.  No URL comes out of the extractor in another way. *)
Theorem C10_href_rewrite (article_bs : bs4.BeautifulSoup) (st : State)
  (before after : list bs4.node) (link : bs4.node) (href : pystr) :
  card_links article_bs = before ++ link :: after ->
  Forall (fun l => exists h,
              bs4.get l (py "href") = Some h
              /\ In (py "https://vse42.ru/articles" ++ skipn 9 h) (urls st))
         before ->
  bs4.get link (py "href") = Some href ->
  ~ In (py "https://vse42.ru/articles" ++ skipn 9 href) (urls st) ->
  fst (_extract_url article_bs st)
  = Ok (py "https://vse42.ru/articles" ++ skipn 9 href)
  /\ (length href <= 9 ->
      fst (_extract_url article_bs st) = Ok (py "https://vse42.ru/articles"))
  /\ (forall st' u,
        fst (_extract_url article_bs st') = Ok u -> u <> [] ->
        exists link' href',
          In link' (card_links article_bs)
          /\ bs4.get link' (py "href") = Some href'
          /\ u = py "https://vse42.ru/articles" ++ skipn 9 href').
Proof.
  intros Hlinks Hbefore Hhref Hnew.
  assert (E : fst (_extract_url article_bs st)
              = Ok (py "https://vse42.ru/articles" ++ skipn 9 href)).
  { unfold _extract_url. cbn [fst]. fold (card_links article_bs).
    rewrite Hlinks. clear Hlinks.
    induction before as [|l before IH]; cbn [app extract_url_links].
    - rewrite Hhref.
      change (url_pattern ++ skipn (length (py "/articles")) href)
        with (py "https://vse42.ru/articles" ++ skipn 9 href).
      apply str_in_not_In in Hnew. now rewrite Hnew.
    - inversion Hbefore as [|? ? [h [Hh Hseen]] Hbefore']. subst.
      rewrite Hh.
      change (url_pattern ++ skipn (length (py "/articles")) h)
        with (py "https://vse42.ru/articles" ++ skipn 9 h).
      apply str_in_In in Hseen. rewrite Hseen. cbn [negb].
      now apply IH. }
  split; [exact E|]. split.
  - intros Hshort. rewrite E. rewrite skipn_all2 by exact Hshort.
    now rewrite app_nil_r.
  - intros st' u Hu Hne. unfold _extract_url in Hu. cbn [fst] in Hu.
    destruct (extract_url_links_sound _ _ _ Hu Hne)
      as [link' [href' [Hin [Hget [Hurl _]]]]].
    now exists link', href'.
Qed.

Lemma C10_href_rewrite_witness :
  fst (_extract_url [card "/x"] start) = Ok (py "https://vse42.ru/articles")
  /\ fst (_extract_url [card "/articles/1"; card "/somewhere/2"]
            (mk_State [article_1] 0 []))
     = Ok (py "https://vse42.ru/articles" ++ py "e/2").
Proof.
  split.
  - refine (proj1 (proj2 (C10_href_rewrite [card "/x"] start [] []
                            (card "/x") (py "/x") eq_refl (Forall_nil _)
                            eq_refl _)) _).
    + intros [].
    + vm_compute. lia.
  - refine (proj1 (C10_href_rewrite
                     [card "/articles/1"; card "/somewhere/2"]
                     (mk_State [article_1] 0 [])
                     [card "/articles/1"] [] (card "/somewhere/2")
                     (py "/somewhere/2") eq_refl _ eq_refl _)).
    + constructor; [|constructor].
      exists (py "/articles/1"). split; [reflexivity | now left].
    + intros [H | []]. discriminate H.
Defined.

(** ** The URL collector *)

Section Collector.

Variable web : nat -> pystr -> result Response.
Variable n : Z.

(** A property of the state that every request and every append keeps.
    [Ready] is what holds whenever a seed is about to be requested. *)
Variables P Ready : State -> Prop.

Hypothesis request_keeps : forall st full_url,
  P st -> Ready st ->
  P (snd (make_request web full_url st))
  /\ Ready (snd (make_request web full_url st)).

Hypothesis append_keeps : forall st u,
  P st -> len (urls st) <> n -> u <> [] -> ~ In u (urls st) ->
  P (snd (urls_append u st)).

Hypothesis ready_below : forall st,
  P st -> len (urls st) <> n -> Ready st.

Lemma while_extracted_keeps (article_bs : bs4.BeautifulSoup) (st : State) :
  P st -> P (snd (while_extracted n article_bs st)).
Proof.
  funelim (while_extracted n article_bs st); intros HP; try exact HP.
  match goal with IH : P _ -> P _ |- _ => apply IH end.
  unfold _extract_url in found. cbn [fst] in found.
  destruct (extract_url_links_sound _ _ _ found) as [l [h [_ [_ [_ Hnew]]]]];
    [discriminate|].
  apply append_keeps; try assumption; [|discriminate].
  now apply Z.eqb_neq.
Qed.

Lemma find_articles_from_keeps (seed_urls : list pystr) (st : State) :
  P st -> Ready st -> P (snd (find_articles_from web n seed_urls st)).
Proof.
  revert st. induction seed_urls as [|seed_url rest IH]; intros st HP HR.
  - exact HP.
  - cbn [find_articles_from]. unfold bind at 1.
    destruct (request_keeps st seed_url HP HR) as [HP1 HR1].
    destruct (make_request web seed_url st) as [[response|e] st1];
      cbn [snd] in HP1, HR1 |- *; [|exact HP1].
    destruct (ok response); cbn [negb]; [|now apply IH].
    unfold bind at 1.
    pose proof (while_extracted_keeps (soup response) st1 HP1) as HP2.
    destruct (while_extracted n (soup response) st1) as [[[]|e] st2];
      cbn [snd] in HP2 |- *; [|exact HP2].
    destruct (len (urls st2) =? n)%Z eqn:full; [exact HP2|].
    apply Z.eqb_neq in full. apply IH; [exact HP2|].
    now apply ready_below.
Qed.

End Collector.

Lemma appended_app (tr tr' : list event) :
  appended (tr ++ tr') = appended tr ++ appended tr'.
Proof.
  induction tr as [|e tr IH]; [reflexivity|].
  destruct e; cbn [app appended]; now rewrite IH.
Qed.

Lemma requested_app (tr tr' : list event) :
  requested (tr ++ tr') = requested tr ++ requested tr'.
Proof.
  induction tr as [|e tr IH]; [reflexivity|].
  destruct e; cbn [app requested]; now rewrite IH.
Qed.

Lemma raw_written_app (tr tr' : list event) :
  raw_written (tr ++ tr') = raw_written tr ++ raw_written tr'.
Proof.
  induction tr as [|e tr IH]; [reflexivity|].
  destruct e; cbn [app raw_written]; now rewrite IH.
Qed.

Lemma meta_written_app (tr tr' : list event) :
  meta_written (tr ++ tr') = meta_written tr ++ meta_written tr'.
Proof.
  induction tr as [|e tr IH]; [reflexivity|].
  destruct e; cbn [app meta_written]; now rewrite IH.
Qed.

Lemma len_app {A} (l l' : list A) : len (l ++ l') = (len l + len l')%Z.
Proof. unfold len. rewrite length_app. lia. Qed.

Lemma all_before_target_snoc (n : Z) (tr : list event) (e : event) :
  all_before_target n tr -> (len (appended tr) < n)%Z ->
  all_before_target n (tr ++ [e]).
Proof.
  intros Htr Hlast pre e' post Hsplit.
  destruct post as [|x post] using rev_ind.
  - apply app_inj_tail in Hsplit as [<- _]. exact Hlast.
  - clear IHpost.
    change (pre ++ e' :: post ++ [x]) with (pre ++ (e' :: post) ++ [x]) in Hsplit.
    rewrite app_assoc in Hsplit.
    apply app_inj_tail in Hsplit as [Hsplit _].
    exact (Htr pre e' post Hsplit).
Qed.

Lemma NoDup_snoc {A} (l : list A) (x : A) :
  NoDup l -> ~ In x l -> NoDup (l ++ [x]).
Proof.
  induction 1 as [|y l Hy Hl IH]; intros Hx; cbn [app].
  - constructor; [intros [] | constructor].
  - constructor.
    + rewrite in_app_iff. intros [Hin | [-> | []]]; [contradiction|].
      apply Hx. now left.
    + apply IH. intros Hin. apply Hx. now right.
Qed.

Lemma NoDup_prefix {A} (l l' : list A) : NoDup (l ++ l') -> NoDup l.
Proof.
  induction l as [|x l IH]; cbn [app]; intros H; [constructor|].
  inversion H as [|? ? Hx Hrest]. subst. constructor.
  - intros Hin. apply Hx. rewrite in_app_iff. now left.
  - now apply IH.
Qed.

(** What the collector keeps true of the state, for the bound: the
    collected URLs are those the trace appended, they are at most [n], and
    every event so far happened below [n]. *)
Lemma collector_bound_kept (web : nat -> pystr -> result Response) (n : Z)
  (seed_urls : list pystr) (st : State) :
  urls st = appended (trace st) ->
  (len (urls st) < n)%Z ->
  all_before_target n (trace st) ->
  let st' := snd (find_articles_from web n seed_urls st) in
  urls st' = appended (trace st')
  /\ (len (urls st') <= n)%Z
  /\ all_before_target n (trace st').
Proof.
  intros Hurls Hlen Htr.
  apply (find_articles_from_keeps web n
           (fun s => urls s = appended (trace s)
                     /\ (len (urls s) <= n)%Z
                     /\ all_before_target n (trace s))
           (fun s => (len (urls s) < n)%Z)).
  - intros s u [Hu [Hn Hb]] Hready. cbn [make_request snd urls trace].
    rewrite appended_app. cbn [appended]. rewrite app_nil_r.
    repeat split; try assumption.
    apply all_before_target_snoc; [exact Hb | now rewrite <- Hu].
  - intros s u [Hu [Hn Hb]] Hneq _ _. cbn [urls_append snd urls trace].
    rewrite appended_app. cbn [appended]. rewrite Hu at 1.
    split; [reflexivity|]. split.
    + rewrite len_app. unfold len at 2. cbn [length]. lia.
    + apply all_before_target_snoc; [exact Hb|]. rewrite <- Hu. lia.
  - intros s [_ [Hn _]] Hneq. lia.
  - repeat split; try assumption. lia.
  - exact Hlen.
Qed.

(** C5: for a positive target, starting from a collector without URLs,
    the collected sequence is never longer than the target, at any point
    of the collection and after it, and nothing is requested or appended
    any more once it has reached the target. *)
Theorem C5_collected_never_exceeds_target
  (web : nat -> pystr -> result Response) (config : Config) (sent : nat) :
  (0 < get_num_articles config)%Z ->
  let st := snd (find_articles web config (mk_State [] sent [])) in
  urls st = appended (trace st)
  /\ (len (urls st) <= get_num_articles config)%Z
  /\ (forall pre post, trace st = pre ++ post ->
        (len (appended pre) <= get_num_articles config)%Z)
  /\ all_before_target (get_num_articles config) (trace st).
Proof.
  intros Hpos st.
  destruct (collector_bound_kept web (get_num_articles config)
              (get_seed_urls config) (mk_State [] sent []))
    as [Hurls [Hlen Hbefore]].
  - reflexivity.
  - exact Hpos.
  - intros [|? ?] ? ? H; discriminate H.
  - fold (find_articles web config (mk_State [] sent [])) in Hurls, Hlen, Hbefore.
    fold st in Hurls, Hlen, Hbefore.
    split; [exact Hurls|]. split; [exact Hlen|]. split; [|exact Hbefore].
    intros pre [|e post] Hsplit.
    + rewrite app_nil_r in Hsplit. rewrite <- Hsplit, <- Hurls. exact Hlen.
    + pose proof (Hbefore pre e post Hsplit). lia.
Qed.

Lemma C5_collected_never_exceeds_target_witness :
  let st := snd (find_articles web_missing_h1 two_articles start) in
  urls st = appended (trace st)
  /\ (len (urls st) <= 2)%Z
  /\ (forall pre post, trace st = pre ++ post -> (len (appended pre) <= 2)%Z)
  /\ all_before_target 2 (trace st).
Proof.
  exact (C5_collected_never_exceeds_target web_missing_h1 two_articles 0
           eq_refl).
Defined.

(** What the collector keeps true of the state, for the dedup invariant:
    the collected URLs are those the trace appended, without repetition. *)
Lemma collector_nodup_kept (web : nat -> pystr -> result Response) (n : Z)
  (seed_urls : list pystr) (st : State) :
  urls st = appended (trace st) ->
  NoDup (urls st) ->
  let st' := snd (find_articles_from web n seed_urls st) in
  urls st' = appended (trace st') /\ NoDup (urls st').
Proof.
  intros Hurls Hnodup.
  apply (find_articles_from_keeps web n
           (fun s => urls s = appended (trace s) /\ NoDup (urls s))
           (fun _ => True)).
  - intros s u [Hu Hn] _. cbn [make_request snd urls trace].
    rewrite appended_app. cbn [appended]. rewrite app_nil_r. now repeat split.
  - intros s u [Hu Hn] _ _ Hnew. cbn [urls_append snd urls trace].
    rewrite appended_app. cbn [appended]. rewrite Hu at 1.
    split; [reflexivity|]. now apply NoDup_snoc.
  - trivial.
  - now split.
  - trivial.
Qed.

(** The meta information leaves the URL and the identifier alone. *)
Lemma meta_keeps_identity (article_soup : bs4.BeautifulSoup)
  (article article' : Article) :
  _fill_article_with_meta_information article_soup article = Ok article' ->
  url article' = url article /\ article_id article' = article_id article.
Proof.
  unfold _fill_article_with_meta_information.
  destruct (bs4.find (py "h1") article_soup); [|discriminate].
  match goal with
  | |- context [bindR ?d _] => destruct d; cbn [bindR]; [|discriminate]
  end.
  intros [= <-]. split; reflexivity.
Qed.

(** A call of [parse] sends one request; what it returns, if it returns,
    is an article with the URL and the identifier it was made for. *)
Lemma parse_outcome (web : nat -> pystr -> result Response)
  (full_url : pystr) (i : Z) (st : State) :
  snd (parse web full_url i st)
  = mk_State (urls st) (S (requests st)) (trace st ++ [EvRequest full_url])
  /\ (forall p, fst (parse web full_url i st) = Ok p ->
        exists a, p = IsArticle a /\ url a = full_url /\ article_id a = i).
Proof.
  unfold parse, bind, make_request.
  destruct (web (requests st) full_url) as [response|e];
    [|split; [reflexivity | discriminate]].
  destruct (ok response).
  - unfold _fill_article_with_text.
    match goal with
    | |- context [_fill_article_with_meta_information ?s ?a] =>
        destruct (_fill_article_with_meta_information s a) as [a'|e] eqn:Hmeta
    end.
    + split; [reflexivity|]. intros p [= <-].
      apply meta_keeps_identity in Hmeta as [Hu Hi].
      exists a'. now repeat split.
    + split; [reflexivity | discriminate].
  - split; [reflexivity|]. intros p [= <-].
    exists (new_Article full_url i). now repeat split.
Qed.

Lemma parse_each_article (web : nat -> pystr -> result Response)
  (i : Z) (full_url : pystr) (rest : list (Z * pystr)) (st st1 : State)
  (a : Article) :
  parse web full_url i st = (Ok (IsArticle a), st1) ->
  parse_each web ((i, full_url) :: rest) st
  = parse_each web rest
      (mk_State (urls st1) (requests st1)
         (trace st1 ++ [EvToRaw a; EvToMeta a])).
Proof.
  intros H. cbn [parse_each]. unfold bind at 1. rewrite H.
  unfold bind, to_raw, to_meta, emit. cbn [urls requests trace].
  rewrite <- app_assoc. reflexivity.
Qed.

Lemma parse_each_raise (web : nat -> pystr -> result Response)
  (i : Z) (full_url : pystr) (rest : list (Z * pystr)) (st st1 : State)
  (e : exn) :
  parse web full_url i st = (Raise e, st1) ->
  parse_each web ((i, full_url) :: rest) st = (Raise e, st1).
Proof.
  intros H. cbn [parse_each]. unfold bind at 1. now rewrite H.
Qed.

(** The loop of [main] leaves the collected URLs alone; it requests the
    URLs in the order given and writes the articles in that order, each
    with the number it was given, up to where it ends. *)
Lemma parse_each_trace (web : nat -> pystr -> result Response)
  (items : list (Z * pystr)) (st : State) :
  exists (tail : list event) (k k' : nat),
    urls (snd (parse_each web items st)) = urls st
    /\ trace (snd (parse_each web items st)) = trace st ++ tail
    /\ appended tail = []
    /\ requested tail = firstn k' (map snd items)
    /\ map identity (raw_written tail) = firstn k items
    /\ map identity (meta_written tail) = firstn k items
    /\ (fst (parse_each web items st) = Ok tt -> k = length items).
Proof.
  revert st. induction items as [|[i full_url] rest IH]; intros st.
  - exists [], 0, 0. cbn. rewrite app_nil_r. now repeat split.
  - destruct (parse_outcome web full_url i st) as [Hst Hp].
    destruct (parse web full_url i st) as [[p|e] st1] eqn:Hparse;
      cbn [fst snd] in Hst, Hp.
    + destruct (Hp p eq_refl) as [a [-> [Hu Hi]]].
      rewrite (parse_each_article web i full_url rest st st1 a Hparse).
      subst st1. cbn [urls requests trace].
      match goal with
      | |- context [parse_each web rest ?s] => destruct (IH s)
          as [tail [k [k' [Hurls [Htrace [Happ [Hreq [Hraw [Hmeta Hok]]]]]]]]]
      end.
      cbn [urls trace] in Hurls, Htrace.
      exists (EvRequest full_url :: EvToRaw a :: EvToMeta a :: tail), (S k), (S k').
      split; [exact Hurls|]. split.
      { rewrite Htrace. rewrite <- !app_assoc. reflexivity. }
      cbn [appended requested raw_written meta_written map firstn snd length].
      unfold identity at 1 3. rewrite Hu, Hi, Hreq, Hraw, Hmeta.
      repeat split; try assumption. intros H. now rewrite (Hok H).
    + rewrite (parse_each_raise web i full_url rest st st1 e Hparse).
      subst st1. exists [EvRequest full_url], 0, 1.
      cbn. repeat split. discriminate.
Qed.

(** The collector writes to no sink. *)
Lemma collector_writes_nothing (web : nat -> pystr -> result Response) (n : Z)
  (seed_urls : list pystr) (st : State) :
  let st' := snd (find_articles_from web n seed_urls st) in
  raw_written (trace st') = raw_written (trace st)
  /\ meta_written (trace st') = meta_written (trace st).
Proof.
  apply (find_articles_from_keeps web n
           (fun s => raw_written (trace s) = raw_written (trace st)
                     /\ meta_written (trace s) = meta_written (trace st))
           (fun _ => True)).
  - intros s u [Hr Hm] _. cbn [make_request snd trace].
    rewrite raw_written_app, meta_written_app. cbn. rewrite !app_nil_r.
    now repeat split.
  - intros s u [Hr Hm] _ _ _. cbn [urls_append snd trace].
    rewrite raw_written_app, meta_written_app. cbn. rewrite !app_nil_r.
    now split.
  - trivial.
  - now split.
  - trivial.
Qed.

Lemma enumerate_urls {A} (l : list A) (start_ : Z) :
  map snd (enumerate l start_) = l.
Proof.
  revert start_. induction l as [|x l IH]; intros start_; [reflexivity|].
  cbn [enumerate map snd]. now rewrite IH.
Qed.

Lemma enumerate_length {A} (l : list A) (start_ : Z) :
  length (enumerate l start_) = length l.
Proof.
  revert start_. induction l as [|x l IH]; intros start_; [reflexivity|].
  cbn [enumerate length]. now rewrite IH.
Qed.

(** [main] is the collection, then the loop over the numbered URLs. *)
Lemma main_phases (web : nat -> pystr -> result Response) (config : Config) :
  main web config start
  = match find_articles web config (mk_State [] 0 [EvPrepareEnvironment]) with
    | (Ok _, st1) => parse_each web (enumerate (urls st1) 1%Z) st1
    | (Raise e, st1) => (Raise e, st1)
    end.
Proof. reflexivity. Qed.

(** C4: in every run, at every point and at the end, the collected URLs
    are without repetition and in the order they were appended in; the
    articles are requested in that order and written with their position,
    counted from 1, as identifier. *)
Theorem C4_collected_urls_unique_and_ordered
  (web : nat -> pystr -> result Response) (config : Config) :
  let run := main web config start in
  NoDup (urls (snd run))
  /\ urls (snd run) = appended (trace (snd run))
  /\ (forall pre post, trace (snd run) = pre ++ post ->
        NoDup (appended pre)
        /\ urls (snd run) = appended pre ++ appended post)
  /\ exists (collecting parsing : list event) (k k' : nat),
       trace (snd run) = collecting ++ parsing
       /\ appended parsing = []
       /\ raw_written collecting = [] /\ meta_written collecting = []
       /\ requested parsing = firstn k' (urls (snd run))
       /\ map identity (raw_written parsing)
          = firstn k (enumerate (urls (snd run)) 1%Z)
       /\ map identity (meta_written parsing)
          = firstn k (enumerate (urls (snd run)) 1%Z)
       /\ (fst run = Ok tt -> k = length (urls (snd run))).
Proof.
  intros run. unfold run. rewrite main_phases. clear run.
  set (st0 := mk_State [] 0 [EvPrepareEnvironment]).
  destruct (collector_nodup_kept web (get_num_articles config)
              (get_seed_urls config) st0 eq_refl (NoDup_nil _))
    as [Hurls Hnodup].
  destruct (collector_writes_nothing web (get_num_articles config)
              (get_seed_urls config) st0) as [Hraw Hmeta].
  fold (find_articles web config st0) in Hurls, Hnodup, Hraw, Hmeta.
  cbn [st0 trace raw_written meta_written] in Hraw, Hmeta.
  destruct (find_articles web config st0) as [[[]|e] st1];
    cbn [snd] in Hurls, Hnodup, Hraw, Hmeta.
  - destruct (parse_each_trace web (enumerate (urls st1) 1%Z) st1)
      as [tail [k [k' [Hu [Htr [Happ [Hreq [Hw [Hm Hok]]]]]]]]].
    set (run := parse_each web (enumerate (urls st1) 1%Z) st1) in *.
    assert (Hall : urls (snd run) = appended (trace (snd run))).
    { rewrite Hu, Htr, appended_app, Happ, app_nil_r. exact Hurls. }
    split; [now rewrite Hu|]. split; [exact Hall|]. split.
    + intros pre post Hsplit.
      rewrite Hsplit, appended_app in Hall. split; [|exact Hall].
      apply (NoDup_prefix _ (appended post)).
      rewrite <- Hall, Hu. exact Hnodup.
    + exists (trace st1), tail, k, k'. rewrite Hu.
      rewrite enumerate_urls in Hreq. rewrite enumerate_length in Hok.
      now repeat split.
  - split; [exact Hnodup|]. split; [exact Hurls|]. split.
    + intros pre post Hsplit. cbn [snd] in Hsplit |- *.
      rewrite Hsplit, appended_app in Hurls. split; [|exact Hurls].
      apply (NoDup_prefix _ (appended post)). now rewrite <- Hurls.
    + exists (trace st1), [], 0, 0. cbn [snd fst].
      rewrite app_nil_r. repeat split; try assumption. discriminate.
Qed.

(** * Further properties *)

(** ** Configuration validation *)

(** X1: the validation accepts a configuration exactly when it is an
    object whose seed URLs are a list of strings that each begin with
    http:// or https://, whose article count is an integer from 1 to 150,
    whose headers are an object, whose encoding is a string, whose timeout
    is an integer from 1 to 59 and whose two flags are booleans. *)
Theorem X1_validation_accepts_exactly_well_formed (config : json) :
  _validate_config_content config = Ok tt <-> well_formed config.
Proof.
  split.
  - intros E. unfold _validate_config_content in E.
    destruct (getitem config "seed_urls") as [seed_v|] eqn:H1;
      cbn [bindR] in E; [|discriminate].
    destruct seed_v; try discriminate E. cbn [isinstance_list negb] in E.
    destruct (all_seeds_match l) as [[|]|] eqn:A; cbn [bindR negb] in E;
      try discriminate.
    destruct (getitem config "total_articles_to_find_and_parse")
      as [total|] eqn:H2; cbn [bindR] in E; [|discriminate].
    destruct (isinstance_int total) eqn:I2; cbn [negb bindR] in E;
      [|discriminate].
    destruct (int_value total) as [n|] eqn:V2; cbn [bindR] in E;
      [|discriminate].
    destruct (n <=? 0)%Z eqn:N1; [discriminate|].
    destruct ((0 <? n) && (n <=? 150))%Z eqn:N2; cbn [negb] in E;
      [|discriminate].
    destruct (getitem config "headers") as [headers|] eqn:H3;
      cbn [bindR] in E; [|discriminate].
    destruct (isinstance_dict headers) eqn:I3; cbn [negb] in E;
      [|discriminate].
    destruct (getitem config "encoding") as [encoding|] eqn:H4;
      cbn [bindR] in E; [|discriminate].
    destruct (isinstance_str encoding) eqn:I4; cbn [negb] in E;
      [|discriminate].
    destruct (getitem config "timeout") as [timeout|] eqn:H5;
      cbn [bindR] in E; [|discriminate].
    destruct (isinstance_int timeout) eqn:I5; cbn [negb bindR] in E;
      [|discriminate].
    destruct (int_value timeout) as [t|] eqn:V5; cbn [bindR] in E;
      [|discriminate].
    destruct ((0 <? t) && (t <? 60))%Z eqn:N5; cbn [negb] in E;
      [|discriminate].
    destruct (getitem config "should_verify_certificate") as [verify|] eqn:H6;
      cbn [bindR] in E; [|discriminate].
    destruct (isinstance_bool verify) eqn:I6; cbn [negb bindR] in E;
      [|discriminate].
    destruct (getitem config "headless_mode") as [headless|] eqn:H7;
      cbn [bindR] in E; [|discriminate].
    destruct (isinstance_bool headless) eqn:I7; cbn [negb] in E;
      [|discriminate].
    apply getitem_ok in H1 as [d [-> L1]].
    apply getitem_ok in H2 as [? [[= <-] L2]].
    apply getitem_ok in H3 as [? [[= <-] L3]].
    apply getitem_ok in H4 as [? [[= <-] L4]].
    apply getitem_ok in H5 as [? [[= <-] L5]].
    apply getitem_ok in H6 as [? [[= <-] L6]].
    apply getitem_ok in H7 as [? [[= <-] L7]].
    exists d. split; [reflexivity|]. unfold passes_to_timeout.
    repeat split; eexists; (split; [eassumption|]); try assumption.
    + exists l. split; [reflexivity | now apply all_seeds_match_true].
    + exists n. split; [exact V2 | lia].
    + exists t. split; [exact V5 | lia].
  - intros [d [-> [[[sv [L1 [seeds [-> Hseeds]]]] [[tv [L2 [n [V2 Hn]]]]
      [[hv [L3 I3]] [ev [L4 I4]]]]] [[ov [L5 [t [V5 Ht]]]] [[vv [L6 I6]]
      [hm [L7 I7]]]]]]].
    apply all_seeds_match_true in Hseeds.
    unfold _validate_config_content, getitem.
    rewrite L1. cbn [bindR isinstance_list negb]. rewrite Hseeds.
    cbn [bindR negb]. rewrite L2. cbn [bindR].
    rewrite (int_value_ok _ _ V2), V2. cbn [negb bindR].
    replace (n <=? 0)%Z with false by lia.
    replace ((0 <? n) && (n <=? 150))%Z with true by lia. cbn [negb].
    rewrite L3. cbn [bindR]. rewrite I3. cbn [negb].
    rewrite L4. cbn [bindR]. rewrite I4. cbn [negb].
    rewrite L5. cbn [bindR]. rewrite (int_value_ok _ _ V5), V5.
    cbn [negb bindR].
    replace ((0 <? t) && (t <? 60))%Z with true by lia. cbn [negb].
    rewrite L6. cbn [bindR]. rewrite I6. cbn [negb bindR].
    rewrite L7. cbn [bindR]. rewrite I7. reflexivity.
Qed.

Lemma all_seeds_match_strings (strs : list pystr) :
  all_seeds_match (map JStr strs) = Ok (forallb re_match_seed strs).
Proof.
  induction strs as [|s strs IH]; [reflexivity|].
  cbn [map all_seeds_match forallb].
  destruct (re_match_seed s); [exact IH | reflexivity].
Qed.

Lemma forallb_prefixed (strs : list pystr) :
  forallb re_match_seed strs = true <-> Forall http_prefixed strs.
Proof.
  rewrite forallb_forall, Forall_forall.
  split; intros H s Hs; apply re_match_seed_prefixed; now apply H.
Qed.

(** X2: a seed value that is no list, or a list of strings one of which
    does not begin with http:// or https://, raises the seed URL error
    whatever the other fields are; a list of strings that all do never
    raises it, the empty list included. *)
Theorem X2_seed_urls_error (config v : json) :
  getitem config "seed_urls" = Ok v ->
  (isinstance_list v = false ->
   _validate_config_content config = Raise IncorrectSeedURLError)
  /\ (forall strs, v = JList (map JStr strs) ->
        (_validate_config_content config = Raise IncorrectSeedURLError
         <-> ~ Forall http_prefixed strs)).
Proof.
  intros Hv. unfold _validate_config_content. rewrite Hv. cbn [bindR]. split.
  - intros ->. reflexivity.
  - intros strs ->. cbn [isinstance_list negb].
    rewrite all_seeds_match_strings. cbn [bindR].
    rewrite <- forallb_prefixed.
    destruct (forallb re_match_seed strs); cbn [negb].
    + split; [|intros H; now contradiction H]. no_count_error.
    + split; [discriminate | reflexivity].
Qed.

Lemma X2_seed_urls_error_witness :
  _validate_config_content (config_file (JStr seed) (JInt 0))
  = Raise IncorrectSeedURLError
  /\ _validate_config_content
       (config_file (JList (map JStr [seed; py "ftp://vse42.ru"])) JNull)
     = Raise IncorrectSeedURLError.
Proof.
  split.
  - exact (proj1 (X2_seed_urls_error (config_file (JStr seed) (JInt 0))
                    (JStr seed) eq_refl) eq_refl).
  - apply (proj2 (X2_seed_urls_error
                    (config_file (JList (map JStr [seed; py "ftp://vse42.ru"]))
                       JNull)
                    (JList (map JStr [seed; py "ftp://vse42.ru"])) eq_refl)
             [seed; py "ftp://vse42.ru"] eq_refl).
    intros H. inversion H as [|? ? _ H']. inversion H' as [|? ? [r [E | E]] _];
      discriminate E.
Defined.

(** With the earlier fields in order, the validation is what it does
    from the timeout on. *)
Lemma validation_from_timeout (d : list (pystr * json)) :
  passes_to_timeout d ->
  _validate_config_content (JDict d)
  = (do timeout <- getitem (JDict d) "timeout";
     do bad_timeout <- (if negb (isinstance_int timeout) then Ok true
                        else do t <- int_value timeout;
                             Ok (negb ((0 <? t) && (t <? 60))%Z));
     if (bad_timeout : bool) then Raise IncorrectTimeoutError else
     do verify <- getitem (JDict d) "should_verify_certificate";
     do bad_flags <- (if negb (isinstance_bool verify) then Ok true
                      else do headless <- getitem (JDict d) "headless_mode";
                           Ok (negb (isinstance_bool headless)));
     if (bad_flags : bool) then Raise IncorrectVerifyError else
     Ok tt).
Proof.
  intros [[sv [L1 [seeds [-> Hseeds]]]] [[tv [L2 [n [V2 Hn]]]]
    [[hv [L3 I3]] [ev [L4 I4]]]]].
  apply all_seeds_match_true in Hseeds.
  unfold _validate_config_content, getitem.
  rewrite L1. cbn [bindR isinstance_list negb]. rewrite Hseeds.
  cbn [bindR negb]. rewrite L2. cbn [bindR].
  rewrite (int_value_ok _ _ V2), V2. cbn [negb bindR].
  replace (n <=? 0)%Z with false by lia.
  replace ((0 <? n) && (n <=? 150))%Z with true by lia. cbn [negb].
  rewrite L3. cbn [bindR]. rewrite I3. cbn [negb].
  rewrite L4. cbn [bindR]. rewrite I4. reflexivity.
Qed.

(** X3: with the earlier fields in order, the timeout error is raised
    exactly when the timeout is no integer or is an integer outside 1 to
    59. *)
Theorem X3_timeout_error (d : list (pystr * json)) (timeout : json) :
  passes_to_timeout d ->
  lookup (py "timeout") d = Some timeout ->
  (_validate_config_content (JDict d) = Raise IncorrectTimeoutError
   <-> ~ int_within 1 59 timeout).
Proof.
  intros Hd Ht. rewrite (validation_from_timeout d Hd).
  unfold getitem at 1. rewrite Ht. cbn [bindR].
  destruct (isinstance_int timeout) eqn:Hint; cbn [negb bindR].
  - assert (exists t, int_value timeout = Ok t) as [t Hv]
      by (destruct timeout; try discriminate; eexists; reflexivity).
    rewrite Hv. cbn [bindR].
    destruct ((0 <? t) && (t <? 60))%Z eqn:Hrange; cbn [negb].
    + split; [no_count_error|]. intros H. contradiction H.
      exists t. split; [exact Hv | lia].
    + split; [|reflexivity]. intros _ [t' [Hv' Hin]].
      assert (t' = t) by congruence. lia.
  - split; [|reflexivity]. intros _ [t' [Hv' _]].
    apply int_value_ok in Hv'. congruence.
Qed.

Lemma fields_to_encoding_pass (more : list (pystr * json)) :
  passes_to_timeout (fields_to_encoding ++ more).
Proof.
  repeat split; eexists; (split; [reflexivity|]); try reflexivity.
  - exists []. split; [reflexivity | constructor].
  - exists 1%Z. split; [reflexivity | lia].
Qed.

Lemma X3_timeout_error_witness :
  _validate_config_content
    (JDict (fields_to_encoding ++ [(py "timeout", JInt 60)]))
  = Raise IncorrectTimeoutError.
Proof.
  refine (proj2 (X3_timeout_error
                   (fields_to_encoding ++ [(py "timeout", JInt 60)])
                   (JInt 60) (fields_to_encoding_pass _) eq_refl) _).
  intros [t [Hv Hin]]. cbn in Hv. assert (t = 60%Z) by congruence. lia.
Defined.

(** X4: with the fields up to the timeout in order, a certificate flag
    that is no boolean raises the flag error, also when the headless flag
    is missing; with a boolean certificate flag, a missing headless flag
    raises [KeyError], one that is no boolean the flag error, and a
    boolean one lets the validation pass. *)
Theorem X4_flag_checks (d : list (pystr * json)) (verify : json) :
  passes_to_timeout d ->
  field_is d "timeout" (int_within 1 59) ->
  lookup (py "should_verify_certificate") d = Some verify ->
  _validate_config_content (JDict d)
  = if isinstance_bool verify then
      match lookup (py "headless_mode") d with
      | None => Raise KeyError
      | Some headless =>
          if isinstance_bool headless then Ok tt
          else Raise IncorrectVerifyError
      end
    else Raise IncorrectVerifyError.
Proof.
  intros Hd [tv [Lt [t [Vt Ht]]]] Lv. rewrite (validation_from_timeout d Hd).
  unfold getitem. rewrite Lt. cbn [bindR].
  rewrite (int_value_ok _ _ Vt), Vt. cbn [negb bindR].
  replace ((0 <? t) && (t <? 60))%Z with true by lia. cbn [negb].
  rewrite Lv. cbn [bindR].
  destruct (isinstance_bool verify); cbn [negb bindR]; [|reflexivity].
  destruct (lookup (py "headless_mode") d) as [headless|]; cbn [bindR];
    [|reflexivity].
  now destruct (isinstance_bool headless).
Qed.

Lemma X4_flag_checks_witness :
  _validate_config_content
    (JDict (fields_to_encoding
            ++ [(py "timeout", JInt 59);
                (py "should_verify_certificate", JInt 1)]))
  = Raise IncorrectVerifyError.
Proof.
  refine (X4_flag_checks
            (fields_to_encoding
             ++ [(py "timeout", JInt 59);
                 (py "should_verify_certificate", JInt 1)])
            (JInt 1) (fields_to_encoding_pass _) _ eq_refl).
  exists (JInt 59). split; [reflexivity|].
  exists 59%Z. split; [reflexivity | lia].
Defined.

(** X5: on the value loaded from the configuration file, the checks
    raise nothing but the seven configuration errors, [KeyError] and
    [TypeError]; [KeyError] only for an object that lacks one of the seven
    keys the checks read, and [TypeError] only for a value that is no
    object or for a seed list with an element that is no string. *)
Theorem X5_validation_errors (config : json) (e : exn) :
  _validate_config_content config = Raise e ->
  config_error e
  \/ (e = KeyError
      /\ exists d key,
           config = JDict d /\ In key config_keys
           /\ lookup (py key) d = None)
  \/ (e = TypeError
      /\ (isinstance_dict config = false
          \/ exists d seeds x,
               config = JDict d
               /\ lookup (py "seed_urls") d = Some (JList seeds)
               /\ In x seeds /\ isinstance_str x = false)).
Proof.
  intros E. unfold _validate_config_content in E.
  assert (missing : forall key e', In key config_keys ->
            getitem config key = Raise e' ->
            e' = e ->
            (e = KeyError
             /\ exists d key,
                  config = JDict d /\ In key config_keys
                  /\ lookup (py key) d = None)
            \/ (e = TypeError
                /\ (isinstance_dict config = false
                    \/ exists d seeds x,
                         config = JDict d
                         /\ lookup (py "seed_urls") d = Some (JList seeds)
                         /\ In x seeds /\ isinstance_str x = false))).
  { intros key e' Hkey H <-.
    destruct (getitem_raises_why _ _ _ H) as [[-> [d [-> Hl]]] | [-> Hd]].
    - left. split; [reflexivity|]. now exists d, key.
    - right. split; [reflexivity|]. now left. }
  assert (int_ok : forall v e', isinstance_int v = true ->
            int_value v = Raise e' -> False)
    by (intros v e' Hi Hv; destruct v; discriminate).
  assert (K1 : In "seed_urls"%string config_keys) by (cbn; tauto).
  assert (K2 : In "total_articles_to_find_and_parse"%string config_keys)
    by (cbn; tauto).
  assert (K3 : In "headers"%string config_keys) by (cbn; tauto).
  assert (K4 : In "encoding"%string config_keys) by (cbn; tauto).
  assert (K5 : In "timeout"%string config_keys) by (cbn; tauto).
  assert (K6 : In "should_verify_certificate"%string config_keys)
    by (cbn; tauto).
  assert (K7 : In "headless_mode"%string config_keys) by (cbn; tauto).
  destruct (getitem config "seed_urls") as [seed_v|] eqn:H1;
    cbn [bindR] in E; [|right; apply (missing _ _ K1 H1); congruence].
  destruct (isinstance_list seed_v) eqn:L1; cbn [negb] in E;
    [|left; unfold config_error; left; congruence].
  destruct seed_v; try discriminate L1.
  destruct (all_seeds_match l) as [[|]|] eqn:A; cbn [bindR negb] in E.
  2: { left. unfold config_error. left. congruence. }
  2: { right. right. destruct (all_seeds_match_raises _ _ A) as [-> [x [Hin Hx]]].
       split; [congruence|]. right.
       apply getitem_ok in H1 as [d [-> Hl]]. now exists d, l, x. }
  destruct (getitem config "total_articles_to_find_and_parse")
    as [total|] eqn:H2; cbn [bindR] in E;
    [|right; apply (missing _ _ K2 H2); congruence].
  destruct (isinstance_int total) eqn:I2; cbn [negb bindR] in E;
    [|left; injection E as <-; unfold config_error; tauto].
  destruct (int_value total) as [n|e'] eqn:V2; cbn [bindR] in E;
    [|exfalso; exact (int_ok _ _ I2 V2)].
  destruct (n <=? 0)%Z;
    [left; injection E as <-; unfold config_error; tauto|].
  destruct ((0 <? n) && (n <=? 150))%Z; cbn [negb] in E;
    [|left; injection E as <-; unfold config_error; tauto].
  destruct (getitem config "headers") as [headers|] eqn:H3;
    cbn [bindR] in E; [|right; apply (missing _ _ K3 H3); congruence].
  destruct (isinstance_dict headers); cbn [negb] in E;
    [|left; injection E as <-; unfold config_error; tauto].
  destruct (getitem config "encoding") as [encoding|] eqn:H4;
    cbn [bindR] in E; [|right; apply (missing _ _ K4 H4); congruence].
  destruct (isinstance_str encoding); cbn [negb] in E;
    [|left; injection E as <-; unfold config_error; tauto].
  destruct (getitem config "timeout") as [timeout|] eqn:H5;
    cbn [bindR] in E; [|right; apply (missing _ _ K5 H5); congruence].
  destruct (isinstance_int timeout) eqn:I5; cbn [negb bindR] in E;
    [|left; injection E as <-; unfold config_error; tauto].
  destruct (int_value timeout) as [t|e'] eqn:V5; cbn [bindR] in E;
    [|exfalso; exact (int_ok _ _ I5 V5)].
  destruct ((0 <? t) && (t <? 60))%Z; cbn [negb] in E;
    [|left; injection E as <-; unfold config_error; tauto].
  destruct (getitem config "should_verify_certificate") as [verify|] eqn:H6;
    cbn [bindR] in E; [|right; apply (missing _ _ K6 H6); congruence].
  destruct (isinstance_bool verify); cbn [negb bindR] in E;
    [|left; injection E as <-; unfold config_error; tauto].
  destruct (getitem config "headless_mode") as [headless|] eqn:H7;
    cbn [bindR] in E; [|right; apply (missing _ _ K7 H7); congruence].
  destruct (isinstance_bool headless); cbn [negb] in E; [discriminate|].
  left. injection E as <-. unfold config_error. tauto.
Qed.

(** An object with every field in order and no [headless_mode]. *)
Lemma X5_validation_errors_witness :
  _validate_config_content
    (JDict (fields_to_encoding
            ++ [(py "timeout", JInt 59);
                (py "should_verify_certificate", JBool true)]))
  = Raise KeyError
  /\ (config_error KeyError
      \/ (KeyError = KeyError
          /\ exists d key,
               JDict (fields_to_encoding
                      ++ [(py "timeout", JInt 59);
                          (py "should_verify_certificate", JBool true)])
               = JDict d
               /\ In key config_keys /\ lookup (py key) d = None)
      \/ (KeyError = TypeError
          /\ (isinstance_dict
                (JDict (fields_to_encoding
                        ++ [(py "timeout", JInt 59);
                            (py "should_verify_certificate", JBool true)]))
              = false
              \/ exists d seeds x,
                   JDict (fields_to_encoding
                          ++ [(py "timeout", JInt 59);
                              (py "should_verify_certificate", JBool true)])
                   = JDict d
                   /\ lookup (py "seed_urls") d = Some (JList seeds)
                   /\ In x seeds /\ isinstance_str x = false))).
Proof.
  split; [reflexivity|].
  exact (X5_validation_errors
           (JDict (fields_to_encoding
                   ++ [(py "timeout", JInt 59);
                       (py "should_verify_certificate", JBool true)]))
           KeyError eq_refl).
Defined.

(** ** The listing extractor, all pages *)

(** The loop over the links returns the empty string exactly when every
    link has an href whose URL is collected. *)
Lemma extract_url_links_empty (collected : list pystr)
  (links : list bs4.node) :
  extract_url_links collected links = Ok []
  <-> Forall (fun link => exists href,
                  bs4.get link (py "href") = Some href
                  /\ In (py "https://vse42.ru/articles" ++ skipn 9 href)
                        collected)
             links.
Proof.
  induction links as [|link links IH]; cbn [extract_url_links].
  - split; [constructor | reflexivity].
  - destruct (bs4.get link (py "href")) as [href|] eqn:G.
    + change (url_pattern ++ skipn (length (py "/articles")) href)
        with (py "https://vse42.ru/articles" ++ skipn 9 href).
      destruct (str_in _ collected) eqn:seen; cbn [negb].
      * apply str_in_In in seen. rewrite IH. split.
        -- intros H. constructor; [now exists href | exact H].
        -- intros H. now inversion H.
      * apply str_in_not_In in seen. split; [discriminate|].
        intros H. inversion H as [|? ? [h [Hh Hin]] _].
        assert (h = href) by congruence. subst h. contradiction.
    + split; [discriminate|].
      intros H. inversion H as [|? ? [h [Hh _]] _]. congruence.
Qed.

(** The loop over the links raises exactly when it meets a link without
    href before a link that yields a new URL, and then [TypeError]. *)
Lemma extract_url_links_raises (collected : list pystr)
  (links : list bs4.node) (e : exn) :
  extract_url_links collected links = Raise e
  <-> e = TypeError
      /\ exists before link after,
           links = before ++ link :: after
           /\ bs4.get link (py "href") = None
           /\ Forall (fun l => exists href,
                          bs4.get l (py "href") = Some href
                          /\ In (py "https://vse42.ru/articles" ++ skipn 9 href)
                                collected)
                     before.
Proof.
  induction links as [|link links IH]; cbn [extract_url_links].
  - split; [discriminate|].
    intros [_ [before [? [? [H _]]]]]. destruct before; discriminate H.
  - destruct (bs4.get link (py "href")) as [href|] eqn:G.
    + change (url_pattern ++ skipn (length (py "/articles")) href)
        with (py "https://vse42.ru/articles" ++ skipn 9 href).
      destruct (str_in _ collected) eqn:seen; cbn [negb].
      * apply str_in_In in seen. rewrite IH. split.
        -- intros [-> [before [l [after [-> [Hl Hb]]]]]].
           split; [reflexivity|]. exists (link :: before), l, after.
           split; [reflexivity|]. split; [exact Hl|].
           constructor; [now exists href | exact Hb].
        -- intros [-> [[|b before] [l [after [Heq [Hl Hb]]]]]];
             cbn [app] in Heq; injection Heq as -> ->.
           ++ congruence.
           ++ split; [reflexivity|]. exists before, l, after.
              split; [reflexivity|]. split; [exact Hl|]. now inversion Hb.
      * apply str_in_not_In in seen. split; [discriminate|].
        intros [_ [[|b before] [l [after [Heq [Hl Hb]]]]]];
          cbn [app] in Heq; injection Heq as -> ->.
        -- congruence.
        -- inversion Hb as [|? ? [h [Hh Hin]] _].
           assert (h = href) by congruence. subst h. contradiction.
    + split.
      * intros [= <-]. split; [reflexivity|].
        exists [], link, links. split; [reflexivity|]. split; [exact G|].
        constructor.
      * intros [-> _]. reflexivity.
Qed.

(** X6: a URL the listing extractor returns is not among the collected
    ones, so that appending it keeps the collection free of repetition,
    and it begins with the base path. *)
Theorem X6_extracted_url_is_new (article_bs : bs4.BeautifulSoup) (st : State)
  (u : pystr) :
  fst (_extract_url article_bs st) = Ok u -> u <> [] ->
  ~ In u (urls st)
  /\ (NoDup (urls st) -> NoDup (urls (snd (urls_append u st))))
  /\ exists rest, u = py "https://vse42.ru/articles" ++ rest.
Proof.
  intros Hu Hne. unfold _extract_url in Hu. cbn [fst] in Hu.
  destruct (extract_url_links_sound _ _ _ Hu Hne)
    as [link [href [_ [_ [Hurl Hnew]]]]].
  split; [exact Hnew|]. split.
  - intros Hnodup. cbn [urls_append snd urls]. now apply NoDup_snoc.
  - now exists (skipn 9 href).
Qed.

Lemma X6_extracted_url_is_new_witness :
  ~ In article_2 [article_1]
  /\ (NoDup [article_1] -> NoDup [article_1; article_2])
  /\ exists rest, article_2 = py "https://vse42.ru/articles" ++ rest.
Proof.
  refine (X6_extracted_url_is_new listing_page
            (mk_State [article_1] 1 [EvAppend article_1]) article_2
            eq_refl _).
  discriminate.
Defined.

(** X7: the listing extractor returns the empty string exactly when
    every card link of the page has an href whose URL is collected, a page
    without card links included. *)
Theorem X7_nothing_left_exactly (article_bs : bs4.BeautifulSoup) (st : State) :
  fst (_extract_url article_bs st) = Ok []
  <-> Forall (fun link => exists href,
                  bs4.get link (py "href") = Some href
                  /\ In (py "https://vse42.ru/articles" ++ skipn 9 href)
                        (urls st))
             (card_links article_bs).
Proof.
  unfold _extract_url. cbn [fst]. apply extract_url_links_empty.
Qed.

(** X8: the listing extractor raises exactly when a card link without
    href comes before every card link that yields a new URL, and what it
    raises then is [TypeError]. *)
Theorem X8_extractor_raises_exactly (article_bs : bs4.BeautifulSoup)
  (st : State) (e : exn) :
  fst (_extract_url article_bs st) = Raise e
  <-> e = TypeError
      /\ exists before link after,
           card_links article_bs = before ++ link :: after
           /\ bs4.get link (py "href") = None
           /\ Forall (fun l => exists href,
                          bs4.get l (py "href") = Some href
                          /\ In (py "https://vse42.ru/articles" ++ skipn 9 href)
                                (urls st))
                     before.
Proof.
  unfold _extract_url. cbn [fst]. apply extract_url_links_raises.
Qed.

(** ** The collector, run by run *)

(** What a run of the inner loop does: it appends URLs of the page, and
    ends at the target, or when the page has nothing new, or with what the
    extractor raised. *)
Lemma while_run (n : Z) (article_bs : bs4.BeautifulSoup) (st : State) :
  let run := while_extracted n article_bs st in
  exists new,
    urls (snd run) = urls st ++ new
    /\ trace (snd run) = trace st ++ map EvAppend new
    /\ requests (snd run) = requests st
    /\ Forall (from_page article_bs) new
    /\ (fst run = Ok tt ->
        len (urls (snd run)) = n
        \/ fst (_extract_url article_bs (snd run)) = Ok [])
    /\ (forall e, fst run = Raise e ->
          fst (_extract_url article_bs (snd run)) = Raise e).
Proof.
  cbv zeta. funelim (while_extracted n article_bs st).
  1-3: exists []; cbn [fst snd map]; rewrite !app_nil_r;
    repeat split; try apply Forall_nil; try discriminate;
    try (intros _; solve [right; assumption | left; now apply Z.eqb_eq]);
    try (intros e' [= <-]; assumption).
  - match goal with
    | IH : exists _, _ |- _ =>
        destruct IH as [new [Hu [Ht [Hr [Hfrom [Hok Hraise]]]]]]
    end.
    exists ((c :: u) :: new).
    split; [rewrite Hu; cbn [urls_append snd urls]; now rewrite <- app_assoc|].
    split; [rewrite Ht; cbn [urls_append snd trace map];
            now rewrite <- app_assoc|].
    split; [rewrite Hr; reflexivity|].
    split; [|split; [exact Hok | exact Hraise]].
    constructor; [|exact Hfrom].
    unfold _extract_url in found. cbn [fst] in found.
    destruct (extract_url_links_sound _ _ _ found)
      as [link [href [Hin [Hget [Hurl _]]]]]; [discriminate|].
    now exists link, href.
Qed.

Lemma appended_map (new : list pystr) : appended (map EvAppend new) = new.
Proof. induction new as [|u new IH]; cbn; congruence. Qed.

Lemma requested_map (new : list pystr) : requested (map EvAppend new) = [].
Proof. induction new as [|u new IH]; cbn; congruence. Qed.

Lemma raw_written_map (new : list pystr) : raw_written (map EvAppend new) = [].
Proof. induction new as [|u new IH]; cbn; congruence. Qed.

Lemma meta_written_map (new : list pystr) :
  meta_written (map EvAppend new) = [].
Proof. induction new as [|u new IH]; cbn; congruence. Qed.

Lemma find_articles_from_raise (web : nat -> pystr -> result Response)
  (n : Z) (seed_url : pystr) (rest : list pystr) (st : State) (e : exn) :
  web (requests st) seed_url = Raise e ->
  find_articles_from web n (seed_url :: rest) st
  = (Raise e, snd (make_request web seed_url st)).
Proof.
  intros H. cbn [find_articles_from]. unfold bind at 1, make_request.
  now rewrite H.
Qed.

Lemma find_articles_from_not_ok (web : nat -> pystr -> result Response)
  (n : Z) (seed_url : pystr) (rest : list pystr) (st : State)
  (response : Response) :
  web (requests st) seed_url = Ok response -> ok response = false ->
  find_articles_from web n (seed_url :: rest) st
  = find_articles_from web n rest (snd (make_request web seed_url st)).
Proof.
  intros H Hok. cbn [find_articles_from]. unfold bind at 1, make_request.
  now rewrite H, Hok.
Qed.

Lemma find_articles_from_ok (web : nat -> pystr -> result Response)
  (n : Z) (seed_url : pystr) (rest : list pystr) (st : State)
  (response : Response) :
  web (requests st) seed_url = Ok response -> ok response = true ->
  find_articles_from web n (seed_url :: rest) st
  = match while_extracted n (soup response)
            (snd (make_request web seed_url st)) with
    | (Ok _, st2) =>
        if (len (urls st2) =? n)%Z then (Ok tt, st2)
        else find_articles_from web n rest st2
    | (Raise e, st2) => (Raise e, st2)
    end.
Proof.
  intros H Hok. cbn [find_articles_from]. unfold bind at 1, make_request.
  rewrite H, Hok. cbn [negb]. unfold bind. reflexivity.
Qed.

Lemma from_seed_page_more (web : nat -> pystr -> result Response)
  (seed_url : pystr) (rest : list pystr) (u : pystr) :
  from_seed_page web rest u -> from_seed_page web (seed_url :: rest) u.
Proof.
  intros [k [s [r [Hin H]]]]. exists k, s, r. split; [now right | exact H].
Qed.

(** What a run of the collector does. *)
Lemma collect_run (web : nat -> pystr -> result Response) (n : Z)
  (seed_urls : list pystr) (st : State) :
  let run := find_articles_from web n seed_urls st in
  exists (k : nat) (events : list event),
    trace (snd run) = trace st ++ events
    /\ urls (snd run) = urls st ++ appended events
    /\ requests (snd run) = requests st + k
    /\ requested events = firstn k seed_urls
    /\ raw_written events = [] /\ meta_written events = []
    /\ Forall (from_seed_page web seed_urls) (appended events)
    /\ (fst run = Ok tt -> len (urls (snd run)) <> n -> k = length seed_urls)
    /\ (forall e, fst run = Raise e ->
          e = TypeError
          \/ exists j seed_url, In seed_url seed_urls /\ web j seed_url = Raise e).
Proof.
  cbv zeta. revert st.
  induction seed_urls as [|seed_url rest IH]; intros st.
  - exists 0, []. cbn. rewrite !app_nil_r, Nat.add_0_r.
    repeat split; try apply Forall_nil. discriminate.
  - assert (Hst1 : urls (snd (make_request web seed_url st)) = urls st
                   /\ trace (snd (make_request web seed_url st))
                      = trace st ++ [EvRequest seed_url]
                   /\ requests (snd (make_request web seed_url st))
                      = S (requests st)) by now repeat split.
    destruct Hst1 as [U1 [T1 R1]].
    destruct (web (requests st) seed_url) as [response|e] eqn:Hweb.
    2: { rewrite (find_articles_from_raise web n seed_url rest st e Hweb).
         set (st1 := snd (make_request web seed_url st)) in *.
         exists 1, [EvRequest seed_url]. cbn [fst snd].
         rewrite U1, T1, R1. cbn. rewrite app_nil_r, Nat.add_1_r.
         repeat split; try apply Forall_nil; try discriminate.
         intros e' [= <-]. right. exists (requests st), seed_url.
         split; [now left | exact Hweb]. }
    destruct (ok response) eqn:Hok.
    2: { rewrite (find_articles_from_not_ok web n seed_url rest st response
                    Hweb Hok).
         set (st1 := snd (make_request web seed_url st)) in *.
         destruct (IH st1)
           as [k [events [Ht [Hu [Hr [Hq [Hw [Hm [Hf [Hall Hex]]]]]]]]]].
         exists (S k), (EvRequest seed_url :: events).
         cbn [appended requested raw_written meta_written firstn length].
         split; [rewrite Ht, T1; now rewrite <- app_assoc|].
         split; [now rewrite Hu, U1|].
         split; [rewrite Hr, R1; lia|].
         split; [now rewrite Hq|].
         split; [exact Hw|]. split; [exact Hm|].
         split; [eapply Forall_impl; [|exact Hf]; intros u;
                 apply from_seed_page_more|].
         split.
         - intros H1 H2. now rewrite (Hall H1 H2).
         - intros e' He'. destruct (Hex e' He') as [-> | [j [s [Hin Hj]]]];
             [now left|]. right. exists j, s. split; [now right | exact Hj]. }
    rewrite (find_articles_from_ok web n seed_url rest st response Hweb Hok).
    set (st1 := snd (make_request web seed_url st)) in *.
    destruct (while_run n (soup response) st1)
      as [new [Hu2 [Ht2 [Hr2 [Hfrom [Hdone Hraise]]]]]].
    assert (Hseed : Forall (from_seed_page web (seed_url :: rest)) new).
    { eapply Forall_impl; [|exact Hfrom]. intros u Hu.
      exists (requests st), seed_url, response.
      split; [now left|]. now repeat split. }
    destruct (while_extracted n (soup response) st1) as [[[]|e] st2];
      cbn [fst snd] in Hu2, Ht2, Hr2, Hdone, Hraise.
    + destruct (len (urls st2) =? n)%Z eqn:full.
      * exists 1, (EvRequest seed_url :: map EvAppend new).
        cbn [appended requested raw_written meta_written firstn fst snd].
        rewrite appended_map, requested_map, raw_written_map, meta_written_map.
        split; [rewrite Ht2, T1; now rewrite <- app_assoc|].
        split; [now rewrite Hu2, U1|].
        split; [rewrite Hr2, R1; lia|].
        repeat split; try assumption; try discriminate.
        intros _ Hneq. exfalso. apply Hneq. now apply Z.eqb_eq.
      * destruct (IH st2)
          as [k [events [Ht [Hu [Hr [Hq [Hw [Hm [Hf [Hall Hex]]]]]]]]]].
        exists (S k), (EvRequest seed_url :: map EvAppend new ++ events).
        cbn [appended requested raw_written meta_written firstn length].
        rewrite appended_app, requested_app, raw_written_app, meta_written_app.
        rewrite appended_map, requested_map, raw_written_map, meta_written_map.
        cbn [app].
        split; [rewrite Ht, Ht2, T1; rewrite <- !app_assoc; reflexivity|].
        split; [rewrite Hu, Hu2, U1; now rewrite <- app_assoc|].
        split; [rewrite Hr, Hr2, R1; lia|].
        split; [now rewrite Hq|].
        split; [exact Hw|]. split; [exact Hm|].
        split; [apply Forall_app; split; [exact Hseed|];
                eapply Forall_impl; [|exact Hf]; intros u;
                apply from_seed_page_more|].
        split.
        -- intros H1 H2. now rewrite (Hall H1 H2).
        -- intros e' He'. destruct (Hex e' He') as [-> | [j [s [Hin Hj]]]];
             [now left|]. right. exists j, s. split; [now right | exact Hj].
    + exists 1, (EvRequest seed_url :: map EvAppend new).
      cbn [appended requested raw_written meta_written firstn fst snd].
      rewrite appended_map, requested_map, raw_written_map, meta_written_map.
      split; [rewrite Ht2, T1; now rewrite <- app_assoc|].
      split; [now rewrite Hu2, U1|].
      split; [rewrite Hr2, R1; lia|].
      repeat split; try assumption; try discriminate.
      intros e' [= <-]. left.
      specialize (Hraise e eq_refl). unfold _extract_url in Hraise.
      cbn [fst] in Hraise.
      now apply extract_url_links_raises in Hraise as [-> _].
Qed.

(** X9: the inner loop of the collector ends in one of two ways: without
    error, and then the target is reached or the page has nothing new
    left; or with [TypeError], which the extractor raises again on the
    state the loop left. *)
Theorem X9_inner_loop_outcomes (n : Z) (article_bs : bs4.BeautifulSoup)
  (st : State) :
  let run := while_extracted n article_bs st in
  (fst run = Ok tt
   /\ (len (urls (snd run)) = n
       \/ fst (_extract_url article_bs (snd run)) = Ok []))
  \/ (fst run = Raise TypeError
      /\ fst (_extract_url article_bs (snd run)) = Raise TypeError).
Proof.
  cbv zeta.
  destruct (while_run n article_bs st) as [new [_ [_ [_ [_ [Hok Hraise]]]]]].
  destruct (fst (while_extracted n article_bs st)) as [[]|e] eqn:Hrun.
  - left. split; [reflexivity | now apply Hok].
  - specialize (Hraise e eq_refl).
    assert (e = TypeError) as ->.
    { unfold _extract_url in Hraise. cbn [fst] in Hraise.
      now apply extract_url_links_raises in Hraise as [-> _]. }
    right. now split.
Qed.

(** X10: the collector keeps what was collected, in place, and every
    URL it adds was made of the href of a card link on a page that the
    site served, with ok, for one of the seeds. *)
Theorem X10_collected_urls_come_from_seed_pages
  (web : nat -> pystr -> result Response) (config : Config) (st : State) :
  exists new,
    urls (snd (find_articles web config st)) = urls st ++ new
    /\ Forall (from_seed_page web (get_seed_urls config)) new.
Proof.
  destruct (collect_run web (get_num_articles config) (get_seed_urls config) st)
    as [k [events [_ [Hu [_ [_ [_ [_ [Hfrom _]]]]]]]]].
  exists (appended events). split; [exact Hu | exact Hfrom].
Qed.

(** X11: the collector requests the seeds in their order, each once,
    up to where it ends, and writes nothing; when it ends without error
    and below the target, it has requested every seed. *)
Theorem X11_seeds_requested_in_order
  (web : nat -> pystr -> result Response) (config : Config) (st : State) :
  let run := find_articles web config st in
  exists (k : nat) (events : list event),
    trace (snd run) = trace st ++ events
    /\ requested events = firstn k (get_seed_urls config)
    /\ requests (snd run) = requests st + k
    /\ raw_written events = [] /\ meta_written events = []
    /\ (fst run = Ok tt ->
        len (urls (snd run)) <> get_num_articles config ->
        k = length (get_seed_urls config)).
Proof.
  cbv zeta.
  destruct (collect_run web (get_num_articles config) (get_seed_urls config) st)
    as [k [events [Ht [_ [Hr [Hq [Hw [Hm [_ [Hall _]]]]]]]]]].
  exists k, events. now repeat split.
Qed.



(** X13: when no seed page is served with ok, the collector requests
    every seed, in order, collects nothing and ends without error. *)
Theorem X13_unserved_seeds_yield_nothing
  (web : nat -> pystr -> result Response) (config : Config) (st : State) :
  (forall k seed_url, In seed_url (get_seed_urls config) ->
     exists response, web k seed_url = Ok response /\ ok response = false) ->
  find_articles web config st
  = (Ok tt,
     mk_State (urls st) (requests st + length (get_seed_urls config))
              (trace st ++ map EvRequest (get_seed_urls config))).
Proof.
  unfold find_articles. generalize (get_num_articles config) as n.
  generalize (get_seed_urls config) as seed_urls. clear config.
  intros seed_urls n. revert st.
  induction seed_urls as [|seed_url rest IH]; intros st Hdown.
  - cbn. rewrite app_nil_r, Nat.add_0_r. now destruct st.
  - destruct (Hdown (requests st) seed_url (or_introl eq_refl))
      as [response [Hweb Hok]].
    rewrite (find_articles_from_not_ok web n seed_url rest st response Hweb Hok).
    rewrite IH by (intros k s Hin; apply Hdown; now right).
    cbn [make_request snd urls requests trace map length].
    rewrite <- app_assoc. cbn [app]. do 2 f_equal. lia.
Qed.

Lemma X13_unserved_seeds_yield_nothing_witness :
  find_articles (fun _ _ => Ok (mk_Response false listing_page))
    (mk_Config [seed; seed] 2) start
  = (Ok tt, mk_State [] 2 [EvRequest seed; EvRequest seed]).
Proof.
  apply (X13_unserved_seeds_yield_nothing
           (fun _ _ => Ok (mk_Response false listing_page))
           (mk_Config [seed; seed] 2) start).
  intros k s _. now exists (mk_Response false listing_page).
Defined.

Lemma find_new_in_order (seen cands : list pystr) :
  List.find (fun u => negb (str_in u seen)) cands
  = hd_error (new_in_order seen cands).
Proof.
  induction cands as [|c cands IH]; [reflexivity|].
  cbn [List.find new_in_order]. now destruct (str_in c seen).
Qed.

Lemma str_in_snoc (x : pystr) (l : list pystr) : str_in x (l ++ [x]) = true.
Proof. apply str_in_In. rewrite in_app_iff. right. now left. Qed.

Lemma str_in_more (x y : pystr) (l : list pystr) :
  str_in x l = true -> str_in x (l ++ [y]) = true.
Proof. rewrite !str_in_In, in_app_iff. tauto. Qed.

Lemma new_in_order_next (seen cands : list pystr) (c : pystr)
  (rest : list pystr) :
  new_in_order seen cands = c :: rest ->
  new_in_order (seen ++ [c]) cands = rest.
Proof.
  induction cands as [|x cands IH]; cbn [new_in_order]; [discriminate|].
  destruct (str_in x seen) eqn:Hx.
  - intros H. rewrite (str_in_more _ c _ Hx). now apply IH.
  - intros [= -> <-]. now rewrite str_in_snoc.
Qed.

Lemma new_in_order_nonempty (hrefs seen : list pystr) (u : pystr)
  (rest : list pystr) :
  new_in_order seen (rewritten hrefs) = u :: rest -> u <> [].
Proof.
  intros H.
  assert (Hin : In u (new_in_order seen (rewritten hrefs)))
    by (rewrite H; now left).
  clear H. revert seen Hin. unfold rewritten.
  induction hrefs as [|h hs IH]; intros seen; cbn [map new_in_order];
    [intros []|].
  destruct (str_in _ seen); [apply IH|].
  intros [<- | Hin]; [discriminate | now apply IH in Hin].
Qed.

(** On a page whose card links all carry an href, the inner loop adds
    the page's new URLs, each once, in document order, up to the target,
    and ends without error. *)
Lemma while_closed_form (n : Z) (article_bs : bs4.BeautifulSoup)
  (hrefs : list pystr) (st : State) :
  map (fun link => bs4.get link (py "href")) (card_links article_bs)
  = map Some hrefs ->
  (len (urls st) <= n)%Z ->
  while_extracted n article_bs st
  = (Ok tt,
     mk_State (urls st ++ added_from_page n (urls st) hrefs) (requests st)
       (trace st ++ map EvAppend (added_from_page n (urls st) hrefs))).
Proof.
  intros Hhrefs. unfold added_from_page.
  assert (Hnext : forall s, fst (_extract_url article_bs s)
            = Ok (match hd_error (new_in_order (urls s) (rewritten hrefs)) with
                  | Some u => u
                  | None => []
                  end)).
  { intros s. unfold _extract_url. cbn [fst]. fold (card_links article_bs).
    rewrite (extract_url_links_next _ _ _ Hhrefs). unfold next_link.
    now rewrite find_new_in_order. }
  pose proof (new_in_order_nonempty hrefs) as Hne.
  funelim (while_extracted n article_bs st); intros Hlen;
    match goal with
    | H : fst (_extract_url _ _) = _ |- _ =>
        pose proof H as Hx; rewrite Hnext in Hx
    end.
  - destruct (new_in_order (urls st) (rewritten hrefs)) as [|u rest] eqn:Hnew.
    + rewrite firstn_nil. cbn [map]. rewrite !app_nil_r. now destruct st.
    + cbn [hd_error] in Hx. injection Hx as ->. now apply Hne in Hnew.
  - discriminate.
  - apply Z.eqb_eq in Heq. rewrite Heq, Z.sub_diag. cbn [Z.to_nat firstn map].
    rewrite !app_nil_r. now destruct st.
  - destruct (new_in_order (urls st) (rewritten hrefs)) as [|x rest] eqn:Hnew;
      [discriminate|].
    cbn [hd_error] in Hx. injection Hx as ->.
    apply Z.eqb_neq in Heq.
    match goal with
    | IH : forall h, map _ _ = map Some h -> _ |- _ =>
        rewrite (IH hrefs Hhrefs Hnext Hne)
    end.
    2: { cbn [urls_append snd urls]. rewrite len_app. unfold len at 2.
         cbn [length]. lia. }
    cbn [urls_append snd urls requests trace].
    rewrite (new_in_order_next _ _ _ _ Hnew).
    rewrite len_app. unfold len at 2. cbn [length].
    replace (Z.to_nat (n - len (urls st)))
      with (S (Z.to_nat (n - (len (urls st) + Z.of_nat 1)))) by lia.
    cbn [firstn map]. rewrite <- !app_assoc. reflexivity.
Qed.

Lemma new_in_order_In (seen cands : list pystr) (u : pystr) :
  In u (new_in_order seen cands) <-> In u cands /\ ~ In u seen.
Proof.
  revert seen. induction cands as [|c cands IH]; intros seen;
    cbn [new_in_order In]; [tauto|].
  destruct (str_in c seen) eqn:Hc.
  - apply str_in_In in Hc. rewrite IH. split; [tauto|].
    intros [[-> | Hu] Hnew]; [contradiction | tauto].
  - apply str_in_not_In in Hc. cbn [In]. rewrite IH, in_app_iff. cbn [In].
    split.
    + intros [-> | [Hu Hnew]]; [tauto|]. split; [tauto|]. tauto.
    + intros [[-> | Hu] Hnew]; [now left|].
      destruct (str_eqb c u) eqn:Hcu.
      * apply str_eqb_eq in Hcu. now left.
      * right. split; [exact Hu|]. intros [H | [H | []]]; [contradiction|].
        subst. rewrite str_eqb_refl in Hcu. discriminate.
Qed.

Lemma new_in_order_NoDup (seen cands : list pystr) :
  NoDup (new_in_order seen cands).
Proof.
  revert seen. induction cands as [|c cands IH]; intros seen;
    cbn [new_in_order]; [constructor|].
  destruct (str_in c seen); [apply IH|].
  constructor; [|apply IH].
  rewrite new_in_order_In, in_app_iff. cbn [In]. tauto.
Qed.

Lemma firstn_In {A} (k : nat) (l : list A) (x : A) :
  In x (firstn k l) -> In x l.
Proof.
  revert l. induction k as [|k IH]; intros [|y l]; cbn [firstn In]; try tauto.
  intros [-> | H]; [now left | right; now apply IH].
Qed.

Lemma firstn_NoDup {A} (k : nat) (l : list A) : NoDup l -> NoDup (firstn k l).
Proof.
  intros H. rewrite <- (firstn_skipn k l) in H. now apply NoDup_prefix in H.
Qed.

(** X14: on a page whose card links all carry an href, and with no more
    URLs collected than the target, the inner loop ends without error and
    adds exactly the page's URLs that were not collected, each once, in
    document order, up to the target; below the target every URL of the
    page is collected afterwards. *)
Theorem X14_inner_loop_adds_new_urls_in_order (n : Z)
  (article_bs : bs4.BeautifulSoup) (hrefs : list pystr) (st : State) :
  map (fun link => bs4.get link (py "href")) (card_links article_bs)
  = map Some hrefs ->
  (len (urls st) <= n)%Z ->
  let added := added_from_page n (urls st) hrefs in
  while_extracted n article_bs st
  = (Ok tt,
     mk_State (urls st ++ added) (requests st)
       (trace st ++ map EvAppend added))
  /\ NoDup added
  /\ (forall u, In u added -> In u (rewritten hrefs) /\ ~ In u (urls st))
  /\ (len (urls st ++ added) <= n)%Z
  /\ ((len (urls st ++ added) < n)%Z ->
      forall u, In u (rewritten hrefs) -> In u (urls st ++ added)).
Proof.
  intros Hhrefs Hlen added.
  split; [now apply while_closed_form|]. unfold added, added_from_page.
  split; [apply firstn_NoDup, new_in_order_NoDup|]. split.
  - intros u Hu. apply firstn_In in Hu. now apply new_in_order_In in Hu.
  - split.
    + rewrite len_app. unfold len at 2.
      pose proof (firstn_le_length (Z.to_nat (n - len (urls st)))
                    (new_in_order (urls st) (rewritten hrefs))).
      lia.
    + rewrite len_app. unfold len at 2. intros Hbelow u Hu.
      rewrite in_app_iff.
      destruct (str_in u (urls st)) eqn:Hseen;
        [left; now apply str_in_In|].
      apply str_in_not_In in Hseen. right.
      rewrite firstn_all2; [now apply new_in_order_In|].
      rewrite length_firstn in Hbelow. lia.
Qed.

Lemma X14_inner_loop_adds_new_urls_in_order_witness :
  while_extracted 2 listing_page (mk_State [article_2] 1 [])
  = (Ok tt,
     mk_State [article_2; article_1] 1 [EvAppend article_1]).
Proof.
  refine (proj1 (X14_inner_loop_adds_new_urls_in_order 2 listing_page
                   [py "/articles/1"; py "/articles/2"; py "/articles/3"]
                   (mk_State [article_2] 1 []) eq_refl _)).
  vm_compute. discriminate.
Defined.

(** X15: when the first seed's page is served with ok, all its card
    links carry an href and its new URLs fill the collection up to the
    target, the collector ends there without error: it has sent one
    request, added those URLs in document order, and asked for no other
    seed. *)
Theorem X15_first_page_fills_target
  (web : nat -> pystr -> result Response) (n : Z) (seed_url : pystr)
  (rest hrefs : list pystr) (st : State) (response : Response) :
  web (requests st) seed_url = Ok response ->
  ok response = true ->
  map (fun link => bs4.get link (py "href")) (card_links (soup response))
  = map Some hrefs ->
  (len (urls st) <= n)%Z ->
  len (urls st ++ added_from_page n (urls st) hrefs) = n ->
  find_articles web (mk_Config (seed_url :: rest) n) st
  = (Ok tt,
     mk_State (urls st ++ added_from_page n (urls st) hrefs)
       (S (requests st))
       (trace st ++ EvRequest seed_url
                 :: map EvAppend (added_from_page n (urls st) hrefs))).
Proof.
  intros Hweb Hok Hhrefs Hlen Hfull. unfold find_articles.
  cbn [get_num_articles get_seed_urls].
  rewrite (find_articles_from_ok web n seed_url rest st response Hweb Hok).
  rewrite (while_closed_form n (soup response) hrefs _ Hhrefs)
    by exact Hlen.
  cbn [make_request snd urls requests trace].
  apply Z.eqb_eq in Hfull. rewrite Hfull. now rewrite <- app_assoc.
Qed.

Lemma X15_first_page_fills_target_witness :
  find_articles web_missing_h1 two_articles start
  = (Ok tt,
     mk_State [article_1; article_2] 1
       [EvRequest seed; EvAppend article_1; EvAppend article_2]).
Proof.
  refine (X15_first_page_fills_target web_missing_h1 2 seed []
            [py "/articles/1"; py "/articles/2"; py "/articles/3"]
            start (mk_Response true listing_page)
            eq_refl eq_refl eq_refl _ eq_refl).
  vm_compute. discriminate.
Defined.

(** ** Text assembly, all pages *)

Lemma join_nil_iff (sep : pystr) (l : list pystr) :
  Forall (fun s => truthy s = true) l ->
  (join sep l = [] <-> l = []).
Proof.
  intros H. split; [|intros ->; reflexivity].
  destruct H as [|s l Hs Hl]; [reflexivity|].
  destruct s as [|c s]; [discriminate Hs|].
  destruct l; discriminate.
Qed.

Lemma filter_truthy_nil (l : list pystr) :
  filter truthy l = [] <-> Forall (fun s => s = []) l.
Proof.
  induction l as [|s l IH]; cbn [filter].
  - split; [constructor | reflexivity].
  - destruct s as [|c s]; cbn [truthy].
    + rewrite IH. split; [now constructor | intros H; now inversion H].
    + split; [discriminate | intros H; inversion H; discriminate].
Qed.

(** X16: text assembly always gives the article a text, leaves its URL,
    identifier and other fields alone, and the text holds no non-breaking
    space; it is empty exactly when every paragraph but the last five has
    an empty text. *)
Theorem X16_text_is_normalised (article_soup : bs4.BeautifulSoup)
  (article : Article) :
  let article' := snd (_fill_article_with_text article_soup article) in
  exists t,
    text article' = Some t
    /\ ~ In 160%N t
    /\ (t = [] <->
        Forall (fun p => bs4.text p = [])
               (drop_last 5 (paragraphs article_soup)))
    /\ url article' = url article
    /\ article_id article' = article_id article
    /\ title article' = title article
    /\ date article' = date article
    /\ topics article' = topics article
    /\ author article' = author article.
Proof.
  cbv zeta. unfold _fill_article_with_text. cbn [snd].
  fold (paragraphs article_soup). eexists. split; [reflexivity|]. split.
  - unfold replace_char. rewrite in_map_iff. intros [c [Hc _]].
    destruct (N.eqb c 160) eqn:E; [discriminate|].
    apply N.eqb_neq in E. congruence.
  - split; [|now repeat split].
    unfold replace_char.
    set (kept := filter truthy
                   (map bs4.text (drop_last 5 (paragraphs article_soup)))).
    assert (Hkept : Forall (fun s => truthy s = true) kept).
    { apply Forall_forall. intros s Hs. unfold kept in Hs.
      now apply filter_In in Hs. }
    split.
    + intros H. apply map_eq_nil in H. apply (join_nil_iff _ _ Hkept) in H.
      unfold kept in H. apply filter_truthy_nil in H.
      now apply Forall_map in H.
    + intros H.
      apply (proj2 (@Forall_map _ _ bs4.text (fun s => s = []) _)) in H.
      apply filter_truthy_nil in H.
      fold kept in H. now rewrite H.
Qed.

Lemma existsb_flat_map_false {A B} (f : B -> bool) (g : A -> list B)
  (l : list A) :
  Forall (fun x => existsb f (g x) = false) l ->
  existsb f (flat_map g l) = false.
Proof.
  induction 1 as [|x l Hx Hl IH]; cbn [flat_map]; [reflexivity|].
  now rewrite existsb_app, Hx, IH.
Qed.

Lemma existsb_flat_map_each {A B} (f : B -> bool) (g : A -> list B)
  (l : list A) :
  existsb f (flat_map g l) = false ->
  Forall (fun x => existsb f (g x) = false) l.
Proof.
  induction l as [|x l IH]; cbn [flat_map]; [constructor|].
  rewrite existsb_app, orb_false_iff. intros [Hx Hl]. constructor; auto.
Qed.

(** Removing elements brings nothing into the tree that a search would
    find. *)
Lemma prune_adds_no_match (name class_ : option pystr) (c : pystr)
  (n : bs4.node) :
  existsb (bs4.search_tag name class_)
          (flat_map bs4.self_and_descendants (bs4.prune c n)) = true ->
  existsb (bs4.search_tag name class_) (bs4.self_and_descendants n) = true.
Proof.
  induction n as [nm cls at_ cs IH|s|s] using node_induction;
    cbn [bs4.prune]; [|cbn [flat_map]; rewrite app_nil_r; trivial..].
  destruct (bs4.class_matches c cls); [discriminate|].
  cbn [flat_map bs4.self_and_descendants]. rewrite app_nil_r.
  cbn [existsb]. rewrite !orb_true_iff. intros [Hself | Hbelow].
  - now left.
  - right. revert Hbelow.
    rewrite flat_map_twice. now apply existsb_flat_map_le.
Qed.

(** After the elements of a class were removed, a search for the class
    finds nothing. *)
Lemma prune_removes (c : pystr) (n : bs4.node) :
  existsb (bs4.search_tag None (Some c))
          (flat_map bs4.self_and_descendants (bs4.prune c n)) = false.
Proof.
  induction n as [nm cls at_ cs IH|s|s] using node_induction;
    cbn [bs4.prune]; [|reflexivity..].
  destruct (bs4.class_matches c cls) eqn:Hc; [reflexivity|].
  cbn [flat_map bs4.self_and_descendants]. rewrite app_nil_r.
  cbn [existsb bs4.search_tag]. rewrite Hc. cbn [andb orb].
  rewrite flat_map_twice. now apply existsb_flat_map_false.
Qed.

(** Removing the elements of a class changes nothing in a tree where a
    search for the class finds nothing. *)
Lemma prune_fixed (c : pystr) (n : bs4.node) :
  existsb (bs4.search_tag None (Some c)) (bs4.self_and_descendants n) = false ->
  bs4.prune c n = [n].
Proof.
  induction n as [nm cls at_ cs IH|s|s] using node_induction;
    cbn [bs4.prune]; [|reflexivity..].
  cbn [bs4.self_and_descendants existsb bs4.search_tag]. cbn [andb].
  rewrite orb_false_iff. intros [Hc Hbelow]. rewrite Hc.
  apply existsb_flat_map_each in Hbelow.
  do 2 f_equal.
  induction IH as [|x cs Hx Hcs IHcs]; [reflexivity|].
  inversion Hbelow as [|? ? Hx' Hcs']. subst.
  cbn [flat_map]. rewrite (Hx Hx'), (IHcs Hcs'). reflexivity.
Qed.

Lemma decompose_all_removes (c : pystr) (soup_ : bs4.BeautifulSoup) :
  existsb (bs4.search_tag None (Some c))
          (bs4.descendants (bs4.decompose_all c soup_)) = false.
Proof.
  unfold bs4.descendants, bs4.decompose_all. rewrite flat_map_twice.
  apply existsb_flat_map_false, Forall_forall. intros n _.
  apply prune_removes.
Qed.

Lemma decompose_all_fixed (c : pystr) (soup_ : bs4.BeautifulSoup) :
  existsb (bs4.search_tag None (Some c)) (bs4.descendants soup_) = false ->
  bs4.decompose_all c soup_ = soup_.
Proof.
  unfold bs4.descendants, bs4.decompose_all. intros H.
  apply existsb_flat_map_each in H.
  induction H as [|n soup_ Hn Hs IH]; [reflexivity|].
  cbn [flat_map]. now rewrite (prune_fixed c n Hn), IH.
Qed.

Lemma decompose_all_keeps_free (c c' : pystr) (soup_ : bs4.BeautifulSoup) :
  existsb (bs4.search_tag None (Some c)) (bs4.descendants soup_) = false ->
  existsb (bs4.search_tag None (Some c))
          (bs4.descendants (bs4.decompose_all c' soup_)) = false.
Proof.
  intros H. apply not_true_is_false. intros Hfound.
  unfold bs4.descendants, bs4.decompose_all in Hfound.
  rewrite flat_map_twice in Hfound.
  apply (existsb_flat_map_le _ _ bs4.self_and_descendants) in Hfound.
  - unfold bs4.descendants in H. congruence.
  - apply Forall_forall. intros n _. apply prune_adds_no_match.
Qed.

(** X17: the tree text assembly leaves behind has no element of class
    footer and none of class lead; running text assembly again on that
    tree changes neither the tree nor the text. *)
Theorem X17_text_assembly_is_idempotent (article_soup : bs4.BeautifulSoup)
  (article article' : Article) :
  let soup_ := fst (_fill_article_with_text article_soup article) in
  bs4.find_all None (Some (py "footer")) soup_ = []
  /\ bs4.find_all None (Some (py "lead")) soup_ = []
  /\ fst (_fill_article_with_text soup_ article') = soup_
  /\ text (snd (_fill_article_with_text soup_ article'))
     = text (snd (_fill_article_with_text article_soup article)).
Proof.
  cbv zeta.
  assert (Hfooter : existsb (bs4.search_tag None (Some (py "footer")))
                      (bs4.descendants (after_text_assembly article_soup))
                    = false).
  { unfold after_text_assembly. apply decompose_all_keeps_free.
    apply decompose_all_removes. }
  assert (Hlead : existsb (bs4.search_tag None (Some (py "lead")))
                    (bs4.descendants (after_text_assembly article_soup))
                  = false)
    by apply decompose_all_removes.
  assert (Hsame : after_text_assembly (after_text_assembly article_soup)
                  = after_text_assembly article_soup).
  { unfold after_text_assembly at 1.
    rewrite (decompose_all_fixed _ _ Hfooter).
    now rewrite (decompose_all_fixed _ _ Hlead). }
  unfold _fill_article_with_text. cbn [fst snd text].
  fold (after_text_assembly article_soup).
  fold (after_text_assembly (after_text_assembly article_soup)).
  rewrite Hsame. unfold bs4.find_all.
  repeat split; now apply filter_nil_existsb.
Qed.

(** ** Meta information, all pages *)

Lemma dir_z_raises (s r : pystr) (e : exn) :
  Strptime.dir_z s = Some (Raise e, r) -> e = ValueError.
Proof.
  unfold Strptime.dir_z.
  repeat match goal with
    | |- context [match ?x with _ => _ end] => destruct x eqn:?
    end; congruence.
Qed.

(** The strict parser raises nothing but [ValueError]. *)
Lemma unify_date_format_raises (date_str : pystr) (e : exn) :
  unify_date_format date_str = Raise e -> e = ValueError.
Proof.
  unfold unify_date_format, Strptime.strptime, Strptime.bind.
  repeat match goal with
    | |- context [match ?x with _ => _ end] => destruct x eqn:?
    end; try congruence.
  intros [= <-]. subst.
  repeat match goal with
    | H : context [match ?x with _ => _ end] |- _ => destruct x eqn:?
    end; try discriminate.
  match goal with
  | H : Some _ = Some _ |- _ => injection H as; subst
  end.
  match goal with
  | H : Strptime.dir_z _ = Some (Raise _, _) |- _ =>
      now apply dir_z_raises in H
  end.
Qed.

(** X18: filling in the meta information raises [AttributeError]
    exactly when the page has no [h1] element, and otherwise nothing but
    [ValueError]; when it succeeds the page has a [time] element whose
    [datetime] attribute the strict parser accepted, which is the date of
    the article, the author is the placeholder, and text, URL and
    identifier are as before. *)
Theorem X18_meta_outcomes (article_soup : bs4.BeautifulSoup)
  (article : Article) :
  let outcome := _fill_article_with_meta_information article_soup article in
  (outcome = Raise AttributeError <-> bs4.find (py "h1") article_soup = None)
  /\ (forall e, outcome = Raise e -> e = AttributeError \/ e = ValueError)
  /\ (forall article', outcome = Ok article' ->
        exists time_ dt,
          bs4.find (py "time") article_soup = Some time_
          /\ unify_date_format (str (bs4.get time_ (py "datetime"))) = Ok dt
          /\ date article' = Some dt
          /\ author article' = Some [py "NOT FOUND"]
          /\ text article' = text article
          /\ url article' = url article
          /\ article_id article' = article_id article).
Proof.
  cbv zeta. unfold _fill_article_with_meta_information.
  destruct (bs4.find (py "h1") article_soup) as [h1|].
  2: { split; [now split|]. split; [|discriminate].
       intros e [= <-]. now left. }
  destruct (bs4.find (py "time") article_soup) as [time_|].
  - destruct (unify_date_format (str (bs4.get time_ (py "datetime"))))
      as [dt|e] eqn:Hdate; cbn [bindR].
    + split; [split; discriminate|]. split; [discriminate|].
      intros article' [= <-]. exists time_, dt. now repeat split.
    + apply unify_date_format_raises in Hdate. subst e.
      split; [split; discriminate|]. split; [|discriminate].
      intros e [= <-]. now right.
  - rewrite fallback_date_rejected. cbn [bindR].
    split; [split; discriminate|]. split; [|discriminate].
    intros e [= <-]. now right.
Qed.

Lemma lstrip_head (s : pystr) (c : N) (r : pystr) :
  lstrip s = c :: r -> isspace c = false.
Proof.
  induction s as [|x s IH]; cbn [lstrip]; [discriminate|].
  destruct (isspace x) eqn:Hx; [exact IH|]. now intros [= <- _].
Qed.

Lemma lstrip_suffix (s : pystr) : exists pre, s = pre ++ lstrip s.
Proof.
  induction s as [|x s [pre IH]]; cbn [lstrip]; [now exists []|].
  destruct (isspace x); [|now exists []].
  exists (x :: pre). cbn [app]. now rewrite <- IH.
Qed.

(** What [strip] returns has no whitespace at either end. *)
Lemma strip_trimmed (s : pystr) : trimmed (strip s).
Proof.
  unfold trimmed, strip. split.
  - intros c r H.
    destruct (lstrip_suffix (rev (lstrip s))) as [pre Hpre].
    apply (f_equal (@rev N)) in Hpre.
    rewrite rev_involutive, rev_app_distr, H in Hpre.
    cbn [app] in Hpre. now apply lstrip_head in Hpre.
  - intros r c H. apply (f_equal (@rev N)) in H.
    rewrite rev_involutive, rev_app_distr in H. cbn [rev app] in H.
    now apply lstrip_head in H.
Qed.

(** X19: the title and every topic of an article whose meta information
    was filled in are without whitespace at either end. *)
Theorem X19_title_and_topics_are_trimmed (article_soup : bs4.BeautifulSoup)
  (article article' : Article) :
  _fill_article_with_meta_information article_soup article = Ok article' ->
  exists title_ topics_,
    title article' = Some title_ /\ trimmed title_
    /\ topics article' = Some topics_ /\ Forall trimmed topics_.
Proof.
  unfold _fill_article_with_meta_information.
  destruct (bs4.find (py "h1") article_soup) as [h1|]; [|discriminate].
  match goal with
  | |- context [bindR ?d _] => destruct d; cbn [bindR]; [|discriminate]
  end.
  intros [= <-]. cbn [title topics]. do 2 eexists.
  split; [reflexivity|]. split; [apply strip_trimmed|].
  split; [reflexivity|].
  apply Forall_forall. intros t Ht. apply in_map_iff in Ht as [n [<- _]].
  apply strip_trimmed.
Qed.

Lemma X19_title_and_topics_are_trimmed_witness :
  exists title_ topics_,
    title (mk_Article article_1 1 None (Some (py "Title"))
             (Some (mk_datetime 2023 5 10 12 0 0 10800000000))
             (Some []) (Some [py "NOT FOUND"])) = Some title_
    /\ trimmed title_
    /\ topics (mk_Article article_1 1 None (Some (py "Title"))
                 (Some (mk_datetime 2023 5 10 12 0 0 10800000000))
                 (Some []) (Some [py "NOT FOUND"])) = Some topics_
    /\ Forall trimmed topics_.
Proof.
  exact (X19_title_and_topics_are_trimmed page_with_time
           (new_Article article_1 1) _ eq_refl).
Defined.

(** X20: when the first [h1] element of the page has no child or more
    than one, the title of the article is the word None. *)
Theorem X20_title_of_a_heading_with_markup (article_soup : bs4.BeautifulSoup)
  (article article' : Article) (nm : pystr) (cls : list pystr)
  (at_ : list (pystr * pystr)) (cs : list bs4.node) :
  bs4.find (py "h1") article_soup = Some (bs4.Tag nm cls at_ cs) ->
  length cs <> 1 ->
  _fill_article_with_meta_information article_soup article = Ok article' ->
  title article' = Some (py "None").
Proof.
  intros Hh1 Hcs.
  assert (Hnone : bs4.string_ (bs4.Tag nm cls at_ cs) = None).
  { destruct cs as [|c [|c' cs]]; [reflexivity | | reflexivity].
    now contradiction Hcs. }
  unfold _fill_article_with_meta_information. rewrite Hh1. cbv zeta.
  rewrite Hnone.
  match goal with
  | |- context [bindR ?d _] => destruct d; cbn [bindR]; [|discriminate]
  end.
  now intros [= <-].
Qed.

Lemma X20_title_of_a_heading_with_markup_witness :
  title (mk_Article article_1 1 None (Some (py "None"))
           (Some (mk_datetime 2023 5 10 12 0 0 10800000000))
           (Some []) (Some [py "NOT FOUND"])) = Some (py "None").
Proof.
  refine (X20_title_of_a_heading_with_markup page_rich_heading
            (new_Article article_1 1) _ (py "h1") [] []
            [bs4.NavigableString (py "Breaking: ");
             bs4.Tag (py "b") [] [] [bs4.NavigableString (py "news")]]
            eq_refl _ eq_refl).
  cbn. discriminate.
Defined.

(** ** The parser and the driver, all runs *)








(** X23: when the page has a heading and its first [time] element has no
    [datetime] attribute, filling in the meta information ends with
    [ValueError]: the strict parser is handed the word None. *)
Theorem X23_time_without_datetime_raises (article_soup : bs4.BeautifulSoup)
  (article : Article) (h1 time_ : bs4.node) :
  bs4.find (py "h1") article_soup = Some h1 ->
  bs4.find (py "time") article_soup = Some time_ ->
  bs4.get time_ (py "datetime") = None ->
  _fill_article_with_meta_information article_soup article = Raise ValueError.
Proof.
  intros Hh1 Htime Hd. unfold _fill_article_with_meta_information.
  now rewrite Hh1, Htime, Hd.
Qed.

Lemma X23_time_without_datetime_raises_witness :
  _fill_article_with_meta_information
    [heading "Title"; bs4.Tag (py "time") [] [] [bs4.NavigableString (py "today")]]
    (new_Article article_1 1)
  = Raise ValueError.
Proof.
  exact (X23_time_without_datetime_raises
           [heading "Title";
            bs4.Tag (py "time") [] [] [bs4.NavigableString (py "today")]]
           (new_Article article_1 1) (heading "Title")
           (bs4.Tag (py "time") [] [] [bs4.NavigableString (py "today")])
           eq_refl eq_refl eq_refl).
Defined.
